(** * The filter engine of the file explorer: [filter_results]

    A shallow embedding of [filter_results] from [file_filter_app.py] and of
    the little it needs from the Python runtime, followed by the properties
    of the filter engine.

    Records are the dictionaries the metadata providers return (JSON objects
    of PowerShell, or the dictionaries built by
    [get_file_info_cross_platform]); a call either returns a list of records
    or raises. *)

From Stdlib Require Import ZArith Ascii String List Bool Lia.
From stdpp Require Import base option list gmap strings pretty.

Local Open Scope string_scope.
Local Open Scope Z_scope.
Local Open Scope list_scope.

(** ** Python values, exceptions *)

(** The values a record holds: what [json.loads] produces. *)
#[warnings="-register-all"]
Inductive pyvalue : Type :=
| PNone
| PBool (b : bool)
| PInt (z : Z)
| PStr (s : string)
| PList (l : list pyvalue)
| PDict (kvs : list (string * pyvalue)).

(** The exceptions the engine can let through. *)
Inductive pyerror : Type :=
| ReError          (* re.error: the pattern does not compile *)
| ValueError       (* datetime.fromisoformat on a string it cannot parse *)
| TypeError        (* os.path.basename of a non-string; naive < aware *)
| AttributeError.  (* .replace on a value that is not a string *)

(** A computation returns or raises. *)
Inductive res (A : Type) : Type :=
| Ok (a : A)
| Raise (e : pyerror).
Arguments Ok {A} a.
Arguments Raise {A} e.

(** Sequencing: an exception of the first computation ends the second. *)
Definition bind {A B : Type} (m : res A) (k : A -> res B) : res B :=
  match m with
  | Ok a => k a
  | Raise e => Raise e
  end.

Notation "'let!' x ':=' m 'in' k" := (bind m (fun x => k))
  (at level 10, x name, m at level 100, k at level 200).

(** A record of the provider: a dictionary with string keys. *)
Abbreviation record := (gmap string pyvalue).

(** [item.get(key, default)] *)
Definition dict_get (item : record) (key : string) (dflt : pyvalue) : pyvalue :=
  default dflt (item !! key).

(** ** Dates and datetimes *)

Record date : Type := mkdate { year : Z; month : Z; day : Z }.

(** The time of day of a naive [time] object. *)
Record time : Type := mktime
  { hour : Z; minute : Z; second : Z; microsecond : Z }.

(** A [datetime]; [tzinfo] is [None] for a naive one, and the UTC offset in
    seconds for an aware one. *)
Record datetime : Type := mkdatetime
  { dt_date : date; dt_time : time; tzinfo : option Z }.

(** [datetime.min.time()] and [datetime.max.time()] *)
Definition datetime_min_time : time := mktime 0 0 0 0.
Definition datetime_max_time : time := mktime 23 59 59 999999.

(** [datetime.combine(d, t)] for a naive [t] *)
Definition datetime_combine (d : date) (t : time) : datetime :=
  mkdatetime d t None.

(** Comparison of tuples of integers, as [datetime._cmp] does on
    [(year, month, day, hour, minute, second, microsecond)]. *)
Fixpoint tuple_cmp (a b : list Z) : comparison :=
  match a, b with
  | [], [] => Eq
  | [], _ :: _ => Lt
  | _ :: _, [] => Gt
  | x :: a', y :: b' =>
      match Z.compare x y with
      | Eq => tuple_cmp a' b'
      | c => c
      end
  end.

Definition date_tuple (d : date) : list Z := [year d; month d; day d].

Definition datetime_tuple (t : datetime) : list Z :=
  date_tuple (dt_date t) ++
  [hour (dt_time t); minute (dt_time t); second (dt_time t);
   microsecond (dt_time t)].

(** Days before the first of January of year [y], and before the first of
    month [m] of a year (proleptic Gregorian calendar), for the comparison
    of two aware datetimes on the UTC time line. *)
Definition is_leap (y : Z) : bool :=
  (y mod 4 =? 0) && (negb (y mod 100 =? 0) || (y mod 400 =? 0)).

Definition days_before_year (y : Z) : Z :=
  let y' := y - 1 in y' * 365 + y' / 4 - y' / 100 + y' / 400.

Definition days_in_month (y m : Z) : Z :=
  if m =? 2 then (if is_leap y then 29 else 28)
  else if (m =? 4) || (m =? 6) || (m =? 9) || (m =? 11) then 30
  else 31.

Definition days_before_month (y m : Z) : Z :=
  fold_right Z.add 0
    (map (days_in_month y) (map Z.of_nat (seq 1 (Z.to_nat (m - 1))))).

Definition toordinal (d : date) : Z :=
  days_before_year (year d) + days_before_month (year d) (month d) + day d.

(** Microseconds on the UTC time line of an aware datetime of offset [off]. *)
Definition utc_microseconds (t : datetime) (off : Z) : Z :=
  (((toordinal (dt_date t) * 24 + hour (dt_time t)) * 60
    + minute (dt_time t)) * 60 + second (dt_time t) - off) * 1000000
  + microsecond (dt_time t).

(** [datetime._cmp]: two naive datetimes compare field by field, two aware
    ones on the UTC time line, and a naive one with an aware one raises
    TypeError. *)
Definition datetime_cmp (a b : datetime) : res comparison :=
  match tzinfo a, tzinfo b with
  | None, None => Ok (tuple_cmp (datetime_tuple a) (datetime_tuple b))
  | Some oa, Some ob =>
      Ok (Z.compare (utc_microseconds a oa) (utc_microseconds b ob))
  | _, _ => Raise TypeError
  end.

(** [a < b] and [a > b] on datetimes *)
Definition datetime_lt (a b : datetime) : res bool :=
  let! c := datetime_cmp a b in
  Ok (match c with Lt => true | _ => false end).

Definition datetime_gt (a b : datetime) : res bool :=
  let! c := datetime_cmp a b in
  Ok (match c with Gt => true | _ => false end).

(** ** Strings *)

(** [s.replace('Z', '+00:00')]: every occurrence of the letter is replaced. *)
Fixpoint replace_Z (s : string) : string :=
  match s with
  | EmptyString => EmptyString
  | String c s' =>
      if Ascii.eqb c "Z"%char then "+00:00" +:+ replace_Z s'
      else String c (replace_Z s')
  end.

(** [v.replace('Z', '+00:00')] on a value: only strings have the method. *)
Definition py_replace_Z (v : pyvalue) : res string :=
  match v with
  | PStr s => Ok (replace_Z s)
  | _ => Raise AttributeError
  end.

(** Truth value of the [name_pattern] argument: [None] and the empty string
    are false. *)
Definition truthy_pattern (name_pattern : option string) : option string :=
  match name_pattern with
  | None => None
  | Some EmptyString => None
  | Some p => Some p
  end.

(** ** The library functions the engine calls

    [re.search], [os.path.basename] and [datetime.fromisoformat] belong to
    the interpreter, and the last two depend on the platform and on its
    version.  The engine is defined over any implementation of them. *)

Inductive re_flag : Type := NOFLAG | IGNORECASE.

Class PyLib : Type := {
  (** a compiled pattern object *)
  Pattern : Type;
  (** [re.compile(pattern, flags)]; [None] when it raises re.error *)
  re_compile : string -> re_flag -> option Pattern;
  (** whether [p.search(s)] returns a match object *)
  Pattern_search : Pattern -> string -> bool;
  (** [os.path.basename] on a string *)
  basename : string -> string;
  (** [datetime.fromisoformat]; [None] when it raises ValueError *)
  fromisoformat : string -> option datetime;
  (** the empty pattern compiles, and it matches at the start of any string *)
  re_compile_empty : forall f,
    exists p, re_compile "" f = Some p /\ forall s, Pattern_search p s = true
}.

Section Engine.
Context {L : PyLib}.

(** [re.search(pattern, s, flags)] as a truth value: the pattern is
    compiled, then searched. *)
Definition re_search (pattern s : string) (flags : re_flag) : res bool :=
  match re_compile pattern flags with
  | None => Raise ReError
  | Some p => Ok (Pattern_search p s)
  end.

(** [os.path.basename(v)]: [os.fspath] accepts a string only. *)
Definition os_path_basename (v : pyvalue) : res string :=
  match v with
  | PStr s => Ok (basename s)
  | _ => Raise TypeError
  end.

Definition datetime_fromisoformat (s : string) : res datetime :=
  match fromisoformat s with
  | Some t => Ok t
  | None => Raise ValueError
  end.

(** [datetime.fromisoformat(item.get(key, '').replace('Z', '+00:00'))] *)
Definition parse_time (item : record) (key : string) : res datetime :=
  let! s := py_replace_Z (dict_get item key (PStr "")) in
  datetime_fromisoformat s.

(** [date_from and t < datetime.combine(date_from, datetime.min.time())] *)
Definition before_from (date_from : option date) (t : datetime) : res bool :=
  match date_from with
  | None => Ok false
  | Some d => datetime_lt t (datetime_combine d datetime_min_time)
  end.

(** [date_to and t > datetime.combine(date_to, datetime.max.time())] *)
Definition after_to (date_to : option date) (t : datetime) : res bool :=
  match date_to with
  | None => Ok false
  | Some d => datetime_gt t (datetime_combine d datetime_max_time)
  end.

(** What one turn of the loop does with its item. *)
Inductive verdict : Type := Continue | Append.

Section Body.
Variables (name_pattern : option string)
          (creation_date_from creation_date_to : option date)
          (modified_date_from modified_date_to : option date)
          (accessed_date_from accessed_date_to : option date).

(** The name test of the loop body: [false] when the body continues. *)
Definition name_filter (item : record) : res bool :=
  match truthy_pattern name_pattern with
  | None => Ok true
  | Some p =>
      let! b := os_path_basename (dict_get item "FullName" (PStr "")) in
      re_search p b IGNORECASE
  end.

Definition loop_body (item : record) : res verdict :=
  let! name_ok := name_filter item in
  if negb name_ok then Ok Continue else
  let! creation_time := parse_time item "CreationTime" in
  let! modified_time := parse_time item "LastWriteTime" in
  let! accessed_time := parse_time item "LastAccessTime" in
  let! c1 := before_from creation_date_from creation_time in
  if c1 then Ok Continue else
  let! c2 := after_to creation_date_to creation_time in
  if c2 then Ok Continue else
  let! m1 := before_from modified_date_from modified_time in
  if m1 then Ok Continue else
  let! m2 := after_to modified_date_to modified_time in
  if m2 then Ok Continue else
  let! a1 := before_from accessed_date_from accessed_time in
  if a1 then Ok Continue else
  let! a2 := after_to accessed_date_to accessed_time in
  if a2 then Ok Continue else
  Ok Append.

(** The [for] loop, with [filtered_results] as it stands. *)
Fixpoint filter_loop (results filtered_results : list record)
  : res (list record) :=
  match results with
  | [] => Ok filtered_results
  | item :: rest =>
      let! v := loop_body item in
      match v with
      | Continue => filter_loop rest filtered_results
      | Append => filter_loop rest (filtered_results ++ [item])
      end
  end.

End Body.

Definition filter_results (results : list record)
    (name_pattern : option string)
    (creation_date_from creation_date_to : option date)
    (modified_date_from modified_date_to : option date)
    (accessed_date_from accessed_date_to : option date)
  : res (list record) :=
  filter_loop name_pattern creation_date_from creation_date_to
    modified_date_from modified_date_to accessed_date_from accessed_date_to
    results [].
End Engine.

(** ** A reference implementation of the library functions

    Used to run the engine on concrete records.  It covers what the examples
    need and refuses the rest:
    - patterns without special characters, searched as literal text, with
      ASCII case folding under [IGNORECASE]; a pattern holding one of the
      special characters of [re] is refused, as [re] refuses ["["];
    - [posixpath.basename];
    - the timestamps [datetime.isoformat()] writes, which is what
      [get_file_info_cross_platform] stores in a record:
      [YYYY-MM-DD], then optionally a separator, [HH:MM:SS], an optional
      [.ffffff] and an optional offset [+HH:MM] or [-HH:MM]. *)

Module Ref.

Definition is_special (c : ascii) : bool :=
  existsb (Ascii.eqb c)
    [".";"^";"$";"*";"+";"?";"{";"}";"[";"]";"\";"|";"(";")"]%char.

Fixpoint has_special (s : string) : bool :=
  match s with
  | EmptyString => false
  | String c s' => is_special c || has_special s'
  end.

Definition lower (c : ascii) : ascii :=
  let n := N_of_ascii c in
  if ((65 <=? n) && (n <=? 90))%N then ascii_of_N (n + 32) else c.

Fixpoint lower_string (s : string) : string :=
  match s with
  | EmptyString => EmptyString
  | String c s' => String (lower c) (lower_string s')
  end.

Fixpoint starts_with (needle hay : string) : bool :=
  match needle, hay with
  | EmptyString, _ => true
  | String _ _, EmptyString => false
  | String a n', String b h' => Ascii.eqb a b && starts_with n' h'
  end.

Fixpoint contains (needle hay : string) : bool :=
  starts_with needle hay ||
  match hay with
  | EmptyString => false
  | String _ h' => contains needle h'
  end.

Record literal : Type := mkliteral { lit_text : string; lit_flag : re_flag }.

Definition compile (pattern : string) (f : re_flag) : option literal :=
  if has_special pattern then None else Some (mkliteral pattern f).

Definition search (p : literal) (s : string) : bool :=
  match lit_flag p with
  | IGNORECASE => contains (lower_string (lit_text p)) (lower_string s)
  | NOFLAG => contains (lit_text p) s
  end.

(** [posixpath.basename]: what follows the last slash. *)
Fixpoint after_last_slash (s : string) : option string :=
  match s with
  | EmptyString => None
  | String c s' =>
      match after_last_slash s' with
      | Some t => Some t
      | None => if Ascii.eqb c "/"%char then Some s' else None
      end
  end.

Definition posix_basename (s : string) : string :=
  default s (after_last_slash s).

(** Reading of a timestamp. *)
Definition digit (c : ascii) : option Z :=
  let n := N_of_ascii c in
  if ((48 <=? n) && (n <=? 57))%N then Some (Z.of_N (n - 48)) else None.

(** [n] decimal digits at the head of [s], and the rest of [s] *)
Fixpoint digits (n : nat) (acc : Z) (s : string) : option (Z * string) :=
  match n with
  | O => Some (acc, s)
  | S n' =>
      match s with
      | EmptyString => None
      | String c s' =>
          match digit c with
          | Some d => digits n' (acc * 10 + d) s'
          | None => None
          end
      end
  end.

Definition expect (c : ascii) (s : string) : option string :=
  match s with
  | String c' s' => if Ascii.eqb c c' then Some s' else None
  | EmptyString => None
  end.

Definition valid_date (y m d : Z) : bool :=
  (1 <=? y) && (y <=? 9999) && (1 <=? m) && (m <=? 12) &&
  (1 <=? d) && (d <=? days_in_month y m).

Definition valid_time (h mi s : Z) : bool :=
  (h <=? 23) && (mi <=? 59) && (s <=? 59).

(** The offset at the end of a timestamp: nothing, or a sign, [HH:MM]. *)
Definition parse_offset (s : string) : option (option Z) :=
  match s with
  | EmptyString => Some None
  | String c s1 =>
      let sign :=
        if Ascii.eqb c "+"%char then Some 1
        else if Ascii.eqb c "-"%char then Some (-1)
        else None in
      sg ← sign;
      '(h, s2) ← digits 2 0 s1;
      s3 ← expect ":" s2;
      '(mi, s4) ← digits 2 0 s3;
      match s4 with
      | EmptyString =>
          if (h <=? 23) && (mi <=? 59)
          then Some (Some (sg * (h * 3600 + mi * 60)))
          else None
      | String _ _ => None
      end
  end.

(** The fraction of a second, if any: a dot and six digits. *)
Definition parse_fraction (s : string) : option (Z * string) :=
  match s with
  | String "." s1 => digits 6 0 s1
  | _ => Some (0, s)
  end.

Definition parse_isoformat (s : string) : option datetime :=
  '(y, s1) ← digits 4 0 s;
  s2 ← expect "-" s1;
  '(m, s3) ← digits 2 0 s2;
  s4 ← expect "-" s3;
  '(d, s5) ← digits 2 0 s4;
  if negb (valid_date y m d) then None else
  match s5 with
  | EmptyString => Some (mkdatetime (mkdate y m d) (mktime 0 0 0 0) None)
  | String _ s6 =>
      '(h, s7) ← digits 2 0 s6;
      s8 ← expect ":" s7;
      '(mi, s9) ← digits 2 0 s8;
      s10 ← expect ":" s9;
      '(sec, s11) ← digits 2 0 s10;
      '(us, s12) ← parse_fraction s11;
      tz ← parse_offset s12;
      if valid_time h mi sec
      then Some (mkdatetime (mkdate y m d) (mktime h mi sec us) tz)
      else None
  end.

End Ref.

#[global] Instance py_ref : PyLib := {|
  Pattern := Ref.literal;
  re_compile := Ref.compile;
  Pattern_search := Ref.search;
  basename := Ref.posix_basename;
  fromisoformat := Ref.parse_isoformat;
  re_compile_empty := ltac:(intros f; exists (Ref.mkliteral "" f);
                            split; [reflexivity|];
                            intros s; destruct f, s; reflexivity)
|}.

(** ** The predicates of the specification

    The filter specification read as a predicate on a record: the name
    predicate and the three ranges, by the words of the specification. *)

(** Lexicographic "at most" on tuples of integers. *)
Fixpoint lex_leb (a b : list Z) : bool :=
  match a, b with
  | [], _ => true
  | _ :: _, [] => false
  | x :: a', y :: b' => (x <? y) || ((x =? y) && lex_leb a' b')
  end.

Definition date_leb (d d' : date) : bool :=
  lex_leb (date_tuple d) (date_tuple d').

Definition timestamp_leb (t t' : datetime) : bool :=
  lex_leb (datetime_tuple t) (datetime_tuple t').

(** The start (00:00:00.000) and the end (23:59:59.999999) of a day. *)
Definition day_start (d : date) : datetime :=
  mkdatetime d (mktime 0 0 0 0) None.

Definition day_end (d : date) : datetime :=
  mkdatetime d (mktime 23 59 59 999999) None.

(** [t] is at or after the start of the day of the lower bound, at or before
    the end of the day of the upper bound; an absent bound is open. *)
Definition not_before (date_from : option date) (t : datetime) : bool :=
  match date_from with
  | None => true
  | Some d => timestamp_leb (day_start d) t
  end.

Definition not_after (date_to : option date) (t : datetime) : bool :=
  match date_to with
  | None => true
  | Some d => timestamp_leb t (day_end d)
  end.

Definition in_range (date_from date_to : option date) (t : datetime) : bool :=
  not_before date_from t && not_after date_to t.

Definition is_naive (t : datetime) : bool :=
  match tzinfo t with None => true | Some _ => false end.

(** A timestamp can be compared with the bounds of its range: it carries no
    offset, or the range has no bound. *)
Definition comparable (date_from date_to : option date) (t : datetime) : bool :=
  is_naive t ||
  match date_from, date_to with None, None => true | _, _ => false end.

Section Spec.
Context {L : PyLib}.
Variables (name_pattern : option string)
          (creation_date_from creation_date_to : option date)
          (modified_date_from modified_date_to : option date)
          (accessed_date_from accessed_date_to : option date).

(** The name predicate: the base name of the full path holds a match of the
    pattern, case ignored. *)
Definition name_matches (item : record) : bool :=
  match name_pattern with
  | None => true
  | Some p =>
      match re_compile p IGNORECASE, dict_get item "FullName" (PStr "") with
      | Some rx, PStr s => Pattern_search rx (basename s)
      | _, _ => false
      end
  end.

(** The name predicate can be evaluated on the record and rejects it. *)
Definition name_rejects (item : record) : bool :=
  match name_pattern with
  | None => false
  | Some p =>
      match re_compile p IGNORECASE, dict_get item "FullName" (PStr "") with
      | Some rx, PStr s => negb (Pattern_search rx (basename s))
      | _, _ => false
      end
  end.

(** The name predicate can be evaluated on the record. *)
Definition named (item : record) : bool :=
  match name_pattern with
  | None => true
  | Some p =>
      match re_compile p IGNORECASE, dict_get item "FullName" (PStr "") with
      | Some _, PStr _ => true
      | _, _ => false
      end
  end.

(** The timestamp under [key] parses, and satisfies the range. *)
Definition field_in_range (date_from date_to : option date)
    (item : record) (key : string) : bool :=
  match parse_time item key with
  | Ok t => in_range date_from date_to t
  | Raise _ => false
  end.

Definition satisfies (item : record) : bool :=
  name_matches item &&
  field_in_range creation_date_from creation_date_to item "CreationTime" &&
  field_in_range modified_date_from modified_date_to item "LastWriteTime" &&
  field_in_range accessed_date_from accessed_date_to item "LastAccessTime".

(** The three timestamp fields of the record are strings that parse. *)
Definition timestamps_parse (item : record) : bool :=
  match parse_time item "CreationTime", parse_time item "LastWriteTime",
        parse_time item "LastAccessTime" with
  | Ok _, Ok _, Ok _ => true
  | _, _, _ => false
  end.

(** They parse, and each can be compared with the bounds set for it. *)
Definition timestamps_comparable (item : record) : bool :=
  match parse_time item "CreationTime", parse_time item "LastWriteTime",
        parse_time item "LastAccessTime" with
  | Ok tc, Ok tm, Ok ta =>
      comparable creation_date_from creation_date_to tc &&
      comparable modified_date_from modified_date_to tm &&
      comparable accessed_date_from accessed_date_to ta
  | _, _, _ => false
  end.

Definition well_formed (item : record) : bool :=
  named item && timestamps_comparable item.

End Spec.

(** One range is within another: each bound of the wider range, where it is
    set, is set in the narrower one and is no tighter. *)
Definition from_within (date_from date_from' : option date) : bool :=
  match date_from, date_from' with
  | None, _ => true
  | Some d, Some d' => date_leb d d'
  | Some _, None => false
  end.

Definition to_within (date_to date_to' : option date) : bool :=
  match date_to, date_to' with
  | None, _ => true
  | Some d, Some d' => date_leb d' d
  | Some _, None => false
  end.

(** The narrower range sets no bound that the wider one leaves open. *)
Definition no_new_bound (bound bound' : option date) : bool :=
  match bound, bound' with
  | None, Some _ => false
  | _, _ => true
  end.

(** Records of the examples. *)
Definition mkrecord (full_name created modified accessed : string)
    (len : pyvalue) : record :=
  list_to_map
    [("FullName", PStr full_name); ("CreationTime", PStr created);
     ("LastWriteTime", PStr modified); ("LastAccessTime", PStr accessed);
     ("Length", len)].

(** Whether a turn of the loop appends its item. *)
Definition appends (v : res verdict) : bool :=
  match v with Ok Append => true | _ => false end.

Definition raises {A : Type} (m : res A) : bool :=
  match m with Raise _ => true | Ok _ => false end.

(** The narrower call returns no more records than the wider one, and none
    that the wider one does not return. *)
Definition at_most_as_many (narrow wide : res (list record)) : Prop :=
  forall out out', wide = Ok out -> narrow = Ok out' ->
    out' `sublist_of` out /\ (length out' <= length out)%nat.

(** The narrower call returns whenever the wider one does. *)
Definition returns_with (narrow wide : res (list record)) : Prop :=
  forall out, wide = Ok out -> exists out', narrow = Ok out'.

(** ** Records of the examples *)

Module Examples.

Definition alpha : record :=
  mkrecord "/data/2022/alpha.txt" "2022-03-01T09:30:00"
    "2022-03-02T10:00:00" "2022-03-03T11:00:00" (PInt 120).

Definition beta : record :=
  mkrecord "/data/2022/beta.txt" "2022-06-15T08:00:00.250000"
    "2022-06-16T10:00:00" "2022-06-17T11:00:00" (PInt 64).

Definition report : record :=
  mkrecord "/data/2022/Report_2022.pdf" "2022-02-01T09:00:00"
    "2022-02-02T09:00:00" "2022-02-03T09:00:00" (PInt 4096).

(** A file whose directory, not its name, holds the word. *)
Definition in_report_dir : record :=
  mkrecord "/data/report/notes.txt" "2022-02-01T09:00:00"
    "2022-02-02T09:00:00" "2022-02-03T09:00:00" (PInt 10).

(** Modified at the last microsecond of a day, and at the start of the next. *)
Definition last_instant : record :=
  mkrecord "/data/2022/a.log" "2021-12-31T08:00:00"
    "2022-01-01T23:59:59.999999" "2022-01-05T08:00:00" (PInt 1).

Definition next_day : record :=
  mkrecord "/data/2022/b.log" "2021-12-31T08:00:00"
    "2022-01-02T00:00:00" "2022-01-05T08:00:00" (PInt 1).

(** A record without creation time; a directory whose creation time is not
    a timestamp. *)
Definition no_creation : record :=
  list_to_map
    [("FullName", PStr "/data/2022/alpha.txt");
     ("LastWriteTime", PStr "2022-01-01T12:00:00");
     ("LastAccessTime", PStr "2022-01-01T12:00:00"); ("Length", PInt 120)].

Definition bad_creation : record :=
  mkrecord "/data/2022/old" "yesterday" "2022-01-01T12:00:00"
    "2022-01-01T12:00:00" PNone.

(** Timestamps in UTC, with the suffix that [filter_results] rewrites. *)
Definition utc : record :=
  mkrecord "/data/2022/utc.txt" "2022-01-01T10:00:00Z"
    "2022-01-01T12:00:00Z" "2022-01-01T12:00:00Z" (PInt 7).

Definition jan1 : date := mkdate 2022 1 1.
Definition apr1 : date := mkdate 2022 4 1.
Definition dec31 : date := mkdate 2022 12 31.

End Examples.

(** * The providers

    [get_file_info_cross_platform] and [run_powershell_command], which the
    two files of the repository share.  What they print is left out. *)

(** The default folder. *)
Definition FOLDER_PATH : string := "E:\2022".

(** An exception is an [OSError] (which [IOError] is too) or it is not. *)
Inductive exn_kind : Type := OSError | OtherException.

Inductive outcome (A : Type) : Type :=
| Returns (a : A)
| Throws (k : exn_kind).
Arguments Returns {A} a.
Arguments Throws {A} k.

Definition outcome_bind {A B : Type} (m : outcome A) (k : A -> outcome B)
  : outcome B :=
  match m with
  | Returns a => k a
  | Throws e => Throws e
  end.

Notation "'try!' x ':=' m 'in' k" := (outcome_bind m (fun x => k))
  (at level 10, x name, m at level 100, k at level 200).

(** What [json.loads] does with a text: it returns the value, raises
    JSONDecodeError, or raises something else (RecursionError, on a text
    nested too deep). *)
Inductive json_result : Type :=
| Parsed (v : pyvalue)
| JSONDecodeError
| JsonRaisesAnother.

(** What the providers and the application take from the interpreter. *)
Class PyHost : Type := {
  (** a number of seconds since the epoch, as [os.stat] reports it *)
  timestamp : Type;
  (** [datetime.fromtimestamp], which gives a naive local time or raises
      (OSError, or OverflowError and ValueError, which are not) *)
  fromtimestamp : timestamp -> outcome datetime;
  (** [datetime.isoformat] *)
  isoformat : datetime -> string;
  (** [json.loads] *)
  json_loads : string -> json_result;
  (** [str] *)
  py_str : pyvalue -> string
}.

Section Providers.
Context {H : PyHost}.

Record stat_result : Type := mkstat
  { st_ctime : timestamp; st_mtime : timestamp; st_atime : timestamp;
    st_size : Z }.

(** An item of the walk: its path, what [item.stat()] and [item.is_file()]
    do. *)
Record dir_entry : Type := mkentry
  { entry_path : string;
    entry_stat : outcome stat_result;
    entry_is_file : outcome bool }.

(** The iteration of [path_obj.rglob('*')]: it yields items, then stops or
    raises. *)
Inductive walk : Type :=
| walk_stop
| walk_raise
| walk_yield (item : dir_entry) (rest : walk).

Record filesystem : Type := mkfs
  { os_path_exists : string -> bool;
    rglob : string -> walk }.

(** The body of the inner [try]: the dictionary of an item. *)
Definition item_info (item : dir_entry) : outcome record :=
  try! stat := entry_stat item in
  try! creation_time := fromtimestamp (st_ctime stat) in
  try! modified_time := fromtimestamp (st_mtime stat) in
  try! accessed_time := fromtimestamp (st_atime stat) in
  try! is_file := entry_is_file item in
  Returns (mkrecord (entry_path item) (isoformat creation_time)
             (isoformat modified_time) (isoformat accessed_time)
             (if is_file then PInt (st_size stat) else PNone)).

(** The [for] loop inside the outer [try]: [None] when an exception leaves
    the loop. *)
Fixpoint scan (w : walk) (results : list record) : option (list record) :=
  match w with
  | walk_stop => Some results
  | walk_raise => None
  | walk_yield item rest =>
      match item_info item with
      | Returns info => scan rest (results ++ [info])
      | Throws OSError => scan rest results
      | Throws OtherException => None
      end
  end.

Definition get_file_info_cross_platform (fs : filesystem) (path : string)
  : list record :=
  if negb (os_path_exists fs path) then []
  else match scan (rglob fs path) [] with
       | Some results => results
       | None => []
       end.

(** The items a walk yields, and whether it ends by raising. *)
Fixpoint walk_items (w : walk) : list dir_entry :=
  match w with
  | walk_stop | walk_raise => []
  | walk_yield item rest => item :: walk_items rest
  end.

Fixpoint walk_raises (w : walk) : bool :=
  match w with
  | walk_stop => false
  | walk_raise => true
  | walk_yield _ rest => walk_raises rest
  end.

(** The records of the items of a list whose dictionary can be built. *)
Fixpoint infos (items : list dir_entry) : list record :=
  match items with
  | [] => []
  | item :: rest =>
      match item_info item with
      | Returns info => info :: infos rest
      | Throws _ => infos rest
      end
  end.

(** An exception that is not an OSError leaves the loop. *)
Definition aborts (w : walk) : bool :=
  walk_raises w ||
  existsb (fun item =>
             match item_info item with
             | Throws OtherException => true
             | _ => false
             end) (walk_items w).

End Providers.

(** [s.strip()], on ASCII text: the white space of [str.isspace]. *)
Definition is_space (c : ascii) : bool :=
  let n := N_of_ascii c in
  (((9 <=? n) && (n <=? 13)) || ((28 <=? n) && (n <=? 32)))%N.

Fixpoint lstrip (s : string) : string :=
  match s with
  | EmptyString => EmptyString
  | String c s' => if is_space c then lstrip s' else s
  end.

Fixpoint rstrip (s : string) : string :=
  match s with
  | EmptyString => EmptyString
  | String c s' =>
      match rstrip s' with
      | EmptyString => if is_space c then EmptyString else String c EmptyString
      | t => String c t
      end
  end.

Definition strip (s : string) : string := rstrip (lstrip s).

(** A text of white space only. *)
Fixpoint blank (s : string) : bool :=
  match s with
  | EmptyString => true
  | String c s' => is_space c && blank s'
  end.

(** What [subprocess.run(..., check=True)] does. *)
Inductive process : Type :=
| Completed (stdout : string)
| RaisesCalledProcessError
| RaisesFileNotFoundError
| RaisesAnother.

(** The command line of [run_powershell_command]. *)
Definition dquote : string := String (ascii_of_nat 34) EmptyString.

Definition ps_command (folder_path : string) : string :=
  "Get-ChildItem -Path " +:+ dquote +:+ folder_path +:+ dquote +:+
  " -Recurse -Force | " +:+
  "Select-Object FullName, CreationTime, LastWriteTime, LastAccessTime, " +:+
  "Length | " +:+
  "ConvertTo-Json -Depth 10".

Section PowerShell.
Context {H : PyHost}.
Variable subprocess_run : list string -> process.

(** [None] when an exception that the function does not catch leaves it. *)
Definition run_powershell_command (folder_path : string) : option pyvalue :=
  match subprocess_run ["powershell"; "-Command"; ps_command folder_path] with
  | Completed stdout =>
      let output := strip stdout in
      match output with
      | EmptyString => Some (PList [])
      | String _ _ =>
          match json_loads output with
          | JSONDecodeError => Some (PList [])
          | JsonRaisesAnother => None
          | Parsed parsed_data =>
              Some (match parsed_data with
                    | PDict _ => PList [parsed_data]
                    | _ => parsed_data
                    end)
          end
      end
  | RaisesCalledProcessError => Some (PList [])
  | RaisesFileNotFoundError => Some (PList [])
  | RaisesAnother => None
  end.

End PowerShell.

(** * The application

    The state of [FileFilterApp]: the variables of the filters, the two lists
    and what the window shows.  A method takes the state and returns the
    state it leaves, with how it ended. *)

(** The date fields, of [tkcalendar]. *)
Class TkCalendar : Type := {
  DateEntry : Type;
  (** [entry.get()], the text of the field *)
  entry_get : DateEntry -> string;
  (** [entry.get_date()], which may rewrite the text of the field *)
  entry_get_date : DateEntry -> date * DateEntry;
  (** [var.set(text)] on the variable of the field *)
  entry_set : string -> DateEntry -> DateEntry;
  entry_get_set : forall text entry, entry_get (entry_set text entry) = text
}.

(** A row of the table: the values of one [tree.insert]. *)
Definition row : Type := pyvalue * pyvalue * pyvalue * pyvalue * string.

Section Application.
Context {L : PyLib} {H : PyHost} {T : TkCalendar}.

Record FileFilterApp : Type := mkapp
  { name_var : string;
    creation_from_entry : DateEntry;
    creation_to_entry : DateEntry;
    modified_from_entry : DateEntry;
    modified_to_entry : DateEntry;
    accessed_from_entry : DateEntry;
    accessed_to_entry : DateEntry;
    original_results : list record;
    filtered_results : list record;
    tree : list row;
    results_label : string }.

(** How a method ends. *)
Inductive ending : Type :=
| Done
| FilterRaised (e : pyerror)
| DisplayRaised.

(** [v[:19]]: strings and lists can be sliced. *)
Definition slice19 (v : pyvalue) : option pyvalue :=
  match v with
  | PStr s => Some (PStr (substring 0 19 s))
  | PList l => Some (PList (take 19 l))
  | _ => None
  end.

(** [str(item.get('Length', '')) if item.get('Length') is not None else ''] *)
Definition length_cell (item : record) : string :=
  match item !! "Length" with
  | None | Some PNone => ""
  | Some v => py_str v
  end.

(** [formatted_item]; [None] when a slice raises. *)
Definition formatted_item (item : record) : option row :=
  c ← slice19 (dict_get item "CreationTime" (PStr ""));
  m ← slice19 (dict_get item "LastWriteTime" (PStr ""));
  a ← slice19 (dict_get item "LastAccessTime" (PStr ""));
  Some (dict_get item "FullName" (PStr ""), c, m, a, length_cell item).

(** The second loop of [update_treeview]: the rows in the table, and whether
    the loop ended without raising. *)
Fixpoint insert_rows (items : list record) (rows : list row)
  : list row * bool :=
  match items with
  | [] => (rows, true)
  | item :: rest =>
      match formatted_item item with
      | Some r => insert_rows rest (rows ++ [r])
      | None => (rows, false)
      end
  end.

Definition set_view (app : FileFilterApp) (filtered : list record)
    (rows : list row) (label : string) : FileFilterApp :=
  mkapp (name_var app) (creation_from_entry app) (creation_to_entry app)
    (modified_from_entry app) (modified_to_entry app)
    (accessed_from_entry app) (accessed_to_entry app)
    (original_results app) filtered rows label.

Definition update_treeview (app : FileFilterApp) : FileFilterApp * ending :=
  let '(rows, ok) := insert_rows (filtered_results app) [] in
  (set_view app (filtered_results app) rows (results_label app),
   if ok then Done else DisplayRaised).

(** [self.original_results = ...] in [load_data], from what the two
    providers return, each taken to be a list of records: the PowerShell
    list is kept unless it is empty. *)
Definition loaded (win32 : bool) (powershell cross_platform : list record)
  : list record :=
  if win32 then
    match powershell with
    | [] => cross_platform
    | _ :: _ => powershell
    end
  else cross_platform.

Definition load_data (win32 : bool) (powershell cross_platform : list record)
    (app : FileFilterApp) : FileFilterApp * ending :=
  let results := loaded win32 powershell cross_platform in
  update_treeview
    (mkapp (name_var app) (creation_from_entry app) (creation_to_entry app)
       (modified_from_entry app) (modified_to_entry app)
       (accessed_from_entry app) (accessed_to_entry app)
       results results (tree app) (results_label app)).

(** [entry.get_date() if entry.get() else None] *)
Definition read_date (entry : DateEntry) : option date * DateEntry :=
  match entry_get entry with
  | EmptyString => (None, entry)
  | String _ _ => let '(d, entry') := entry_get_date entry in (Some d, entry')
  end.

(** [name_pattern or None] *)
Definition or_None (name_pattern : string) : option string :=
  match name_pattern with
  | EmptyString => None
  | String _ _ => Some name_pattern
  end.

Definition count_label (filtered_count total_count : nat) : string :=
  "Results: " +:+ pretty filtered_count +:+ " of " +:+ pretty total_count.

Definition apply_filters (app : FileFilterApp) : FileFilterApp * ending :=
  let name_pattern := strip (name_var app) in
  let '(creation_from, e1) := read_date (creation_from_entry app) in
  let '(creation_to, e2) := read_date (creation_to_entry app) in
  let '(modified_from, e3) := read_date (modified_from_entry app) in
  let '(modified_to, e4) := read_date (modified_to_entry app) in
  let '(accessed_from, e5) := read_date (accessed_from_entry app) in
  let '(accessed_to, e6) := read_date (accessed_to_entry app) in
  let app1 :=
    mkapp (name_var app) e1 e2 e3 e4 e5 e6 (original_results app)
      (filtered_results app) (tree app) (results_label app) in
  match filter_results (original_results app) (or_None name_pattern)
          creation_from creation_to modified_from modified_to
          accessed_from accessed_to with
  | Raise e => (app1, FilterRaised e)
  | Ok filtered =>
      match update_treeview
              (set_view app1 filtered (tree app1) (results_label app1)) with
      | (app2, Done) =>
          (set_view app2 (filtered_results app2) (tree app2)
             (count_label (length (filtered_results app2))
                (length (original_results app2))), Done)
      | (app2, e) => (app2, e)
      end
  end.

Definition clear_filters (app : FileFilterApp) : FileFilterApp * ending :=
  let app1 :=
    mkapp "" (entry_set "" (creation_from_entry app))
      (entry_set "" (creation_to_entry app))
      (entry_set "" (modified_from_entry app))
      (entry_set "" (modified_to_entry app))
      (entry_set "" (accessed_from_entry app))
      (entry_set "" (accessed_to_entry app))
      (original_results app) (original_results app) (tree app)
      (results_label app) in
  match update_treeview app1 with
  | (app2, Done) =>
      (set_view app2 (filtered_results app2) (tree app2)
         ("Results: " +:+ pretty (length (filtered_results app2))), Done)
  | (app2, e) => (app2, e)
  end.

(** The user types a name. *)
Definition set_name (name : string) (app : FileFilterApp) : FileFilterApp :=
  mkapp name (creation_from_entry app) (creation_to_entry app)
    (modified_from_entry app) (modified_to_entry app)
    (accessed_from_entry app) (accessed_to_entry app)
    (original_results app) (filtered_results app) (tree app)
    (results_label app).


End Application.

(** ** A reference implementation of the host

    For the examples: a host whose local time is UTC, which refuses the
    times before the epoch (as Windows does) and the years after 9999; the
    JSON texts of the examples; date fields that hold [yyyy-mm-dd] and fall
    back on their last date when their text is not one. *)

Module RefHost.

(** [n] decimal digits of [z], before [rest] *)
Fixpoint pad (n : nat) (z : Z) (rest : string) : string :=
  match n with
  | O => rest
  | S n' =>
      pad n' (z / 10) (String (ascii_of_N (48 + Z.to_N (z mod 10))) rest)
  end.

(** The civil date of a number of days since 1970-01-01. *)
Definition civil_from_days (days : Z) : date :=
  let z := days + 719468 in
  let era := z / 146097 in
  let doe := z - era * 146097 in
  let yoe := (doe - doe / 1460 + doe / 36524 - doe / 146096) / 365 in
  let doy := doe - (365 * yoe + yoe / 4 - yoe / 100) in
  let mp := (5 * doy + 2) / 153 in
  let d := doy - (153 * mp + 2) / 5 + 1 in
  let m := if mp <? 10 then mp + 3 else mp - 9 in
  mkdate (yoe + era * 400 + (if m <=? 2 then 1 else 0)) m d.

Definition valid_datetime (t : datetime) : bool :=
  Ref.valid_date (year (dt_date t)) (month (dt_date t)) (day (dt_date t)) &&
  (0 <=? hour (dt_time t)) && (hour (dt_time t) <=? 23) &&
  (0 <=? minute (dt_time t)) && (minute (dt_time t) <=? 59) &&
  (0 <=? second (dt_time t)) && (second (dt_time t) <=? 59) &&
  (0 <=? microsecond (dt_time t)) && (microsecond (dt_time t) <=? 999999).

(** A time stamp is a number of microseconds since the epoch. *)
Definition fromtimestamp (us : Z) : outcome datetime :=
  if us <? 0 then Throws OSError else
  let secs := us / 1000000 in
  let rem := secs mod 86400 in
  let t := mkdatetime (civil_from_days (secs / 86400))
             (mktime (rem / 3600) ((rem mod 3600) / 60) (rem mod 60)
                (us mod 1000000)) None in
  if valid_datetime t then Returns t else Throws OtherException.

Definition offset_text (off : Z) : string :=
  let a := Z.abs off in
  String (if off <? 0 then "-"%char else "+"%char)
    (pad 2 (a / 3600) (String ":" (pad 2 ((a mod 3600) / 60)
       (if a mod 60 =? 0 then "" else String ":" (pad 2 (a mod 60) ""))))).

Definition isoformat (t : datetime) : string :=
  pad 4 (year (dt_date t)) (String "-"
  (pad 2 (month (dt_date t)) (String "-"
  (pad 2 (day (dt_date t)) (String "T"
  (pad 2 (hour (dt_time t)) (String ":"
  (pad 2 (minute (dt_time t)) (String ":"
  (pad 2 (second (dt_time t))
     ((if microsecond (dt_time t) =? 0 then ""
       else String "." (pad 6 (microsecond (dt_time t)) "")) +:+
      match tzinfo t with
      | None => ""
      | Some off => offset_text off
      end))))))))))).

(** The JSON texts of the examples: a number, a constant, an empty array or
    an empty object. *)
Definition json_loads (s : string) : json_result :=
  if String.eqb s "null" then Parsed PNone
  else if String.eqb s "true" then Parsed (PBool true)
  else if String.eqb s "false" then Parsed (PBool false)
  else if String.eqb s "[]" then Parsed (PList [])
  else if String.eqb s "{}" then Parsed (PDict [])
  else match Ref.digits (String.length s) 0 s with
       | Some (z, _) => match s with
                        | EmptyString => JSONDecodeError
                        | String _ _ => Parsed (PInt z)
                        end
       | None => JSONDecodeError
       end.

(** [str], without the escapes of the strings inside lists and objects. *)
Fixpoint py_str (v : pyvalue) : string :=
  let quoted s := "'" +:+ s +:+ "'" in
  let repr v :=
    match v with
    | PStr s => quoted s
    | _ => py_str v
    end in
  match v with
  | PNone => "None"
  | PBool true => "True"
  | PBool false => "False"
  | PInt z => pretty z
  | PStr s => s
  | PList l =>
      "[" +:+ String.concat ", " (map repr l) +:+ "]"
  | PDict kvs =>
      "{" +:+ String.concat ", "
                (map (fun kv => quoted (fst kv) +:+ ": " +:+ repr (snd kv)) kvs)
      +:+ "}"
  end.

(** A date field: its text, and the last date it held. *)
Definition parse_date (text : string) : option date :=
  '(y, s1) ← Ref.digits 4 0 text;
  s2 ← Ref.expect "-" s1;
  '(m, s3) ← Ref.digits 2 0 s2;
  s4 ← Ref.expect "-" s3;
  '(d, s5) ← Ref.digits 2 0 s4;
  match s5 with
  | EmptyString => if Ref.valid_date y m d then Some (mkdate y m d) else None
  | String _ _ => None
  end.

Definition format_date (d : date) : string :=
  pad 4 (year d) (String "-" (pad 2 (month d) (String "-" (pad 2 (day d) "")))).

Definition get_date (entry : string * date) : date * (string * date) :=
  match parse_date (fst entry) with
  | Some d => (d, (fst entry, d))
  | None => (snd entry, (format_date (snd entry), snd entry))
  end.

End RefHost.

#[global] Instance host_ref : PyHost := {|
  timestamp := Z;
  fromtimestamp := RefHost.fromtimestamp;
  isoformat := RefHost.isoformat;
  json_loads := RefHost.json_loads;
  py_str := RefHost.py_str
|}.

#[global] Instance tk_ref : TkCalendar := {|
  DateEntry := string * date;
  entry_get := fst;
  entry_get_date := RefHost.get_date;
  entry_set := fun text entry => (text, snd entry);
  entry_get_set := fun text entry => eq_refl
|}.

(** What [fromisoformat] has to do with what [isoformat] writes for the
    times of [fromtimestamp]: read it back, as a naive time. *)
Definition reads_back {L : PyLib} {H : PyHost} : Prop :=
  forall (stamp : timestamp) (t : datetime),
    fromtimestamp stamp = Returns t ->
    fromisoformat (replace_Z (isoformat t)) = Some t /\ tzinfo t = None.

(** The pattern, if there is one, compiles. *)
Definition compiles {L : PyLib} (name_pattern : option string) : bool :=
  match name_pattern with
  | None => true
  | Some p =>
      match re_compile p IGNORECASE with Some _ => true | None => false end
  end.

(** ** A folder of the examples *)

Module Folder.

(** 2022-03-01T09:30:00, 2022-06-15T08:00:00.250000 and a time before the
    epoch, in microseconds. *)
Definition march : Z := 1646127000000000.
Definition june : Z := 1655280000250000.
Definition before_epoch : Z := -1.

Definition file_a : dir_entry :=
  mkentry "E:\2022\a.txt" (Returns (mkstat march march june 120))
    (Returns true).

Definition dir_b : dir_entry :=
  mkentry "E:\2022\b" (Returns (mkstat june june june 4096))
    (Returns false).

(** An item that vanished before [stat], and one with a time that
    [fromtimestamp] refuses with an OSError. *)
Definition gone : dir_entry :=
  mkentry "E:\2022\gone" (Throws OSError) (Returns false).

Definition ancient : dir_entry :=
  mkentry "E:\2022\ancient" (Returns (mkstat march before_epoch march 1))
    (Returns true).

(** An item whose [stat] raises something else. *)
Definition broken : dir_entry :=
  mkentry "E:\bad\broken" (Throws OtherException) (Returns true).

(** The default folder holds the first four items; the walk of another
    folder finds a file, then the broken item. *)
Definition fs : filesystem :=
  mkfs (fun path => String.eqb path FOLDER_PATH || String.eqb path "E:\bad")
       (fun path =>
          if String.eqb path FOLDER_PATH then
            walk_yield file_a (walk_yield gone (walk_yield ancient
              (walk_yield dir_b walk_stop)))
          else walk_yield file_a (walk_yield broken walk_stop)).

(** The records of the two items of the default folder that can be read. *)
Definition record_a : record :=
  mkrecord "E:\2022\a.txt" "2022-03-01T09:30:00" "2022-03-01T09:30:00"
    "2022-06-15T08:00:00.250000" (PInt 120).

Definition record_b : record :=
  mkrecord "E:\2022\b" "2022-06-15T08:00:00.250000"
    "2022-06-15T08:00:00.250000" "2022-06-15T08:00:00.250000" PNone.

End Folder.

(** ** A window of the examples *)

Module Window.
Import Examples.

(** The name field holds white space, the creation range is April to
    December 2022, the other date fields are empty. *)
Definition app : FileFilterApp :=
  mkapp "   " ("2022-04-01", apr1) ("2022-12-31", dec31)
    ("", jan1) ("", jan1) ("", jan1) ("", jan1)
    [alpha; beta] [alpha; beta] [] "Results: 0".

(** The window before any record is loaded. *)
Definition start : FileFilterApp :=
  mkapp "" ("2022-04-01", apr1) ("2022-12-31", dec31)
    ("", jan1) ("", jan1) ("", jan1) ("", jan1) [] [] [] "Results: 0".

(** The same window with a record that cannot be filtered. *)
Definition app_bad : FileFilterApp :=
  mkapp "" ("2022-04-01", apr1) ("", jan1)
    ("", jan1) ("", jan1) ("", jan1) ("", jan1)
    [alpha; bad_creation] [alpha] [] "Results: 1 of 2".



End Window.

(** * Properties *)

(** ** The loop *)

Section Loop.
Context {L : PyLib}.
Variables (name_pattern : option string)
          (creation_date_from creation_date_to : option date)
          (modified_date_from modified_date_to : option date)
          (accessed_date_from accessed_date_to : option date).

Local Abbreviation body := (loop_body name_pattern
  creation_date_from creation_date_to modified_date_from modified_date_to
  accessed_date_from accessed_date_to).
Local Abbreviation loop := (filter_loop name_pattern
  creation_date_from creation_date_to modified_date_from modified_date_to
  accessed_date_from accessed_date_to).
Local Abbreviation run results := (filter_results results name_pattern
  creation_date_from creation_date_to modified_date_from modified_date_to
  accessed_date_from accessed_date_to).

(** The list built so far is a prefix of the result. *)
Lemma filter_loop_acc (results acc : list record) :
  loop results acc = (let! out := run results in Ok (acc ++ out)).
Proof.
  unfold filter_results.
  revert acc. induction results as [|item rest IH]; intros acc; simpl.
  - by rewrite app_nil_r.
  - destruct (loop_body _ _ _ _ _ _ _ item) as [[|]|e]; simpl; [apply IH| |done].
    rewrite (IH (acc ++ [item])), (IH [item]).
    destruct (filter_loop _ _ _ _ _ _ _ rest []); simpl; [|done].
    by rewrite <- app_assoc.
Qed.

(** One turn of the loop, then the rest of the list. *)
Lemma filter_results_cons (item : record) (rest : list record) :
  run (item :: rest) =
  (let! v := body item in
   let! out := run rest in
   Ok (match v with Continue => out | Append => item :: out end)).
Proof.
  unfold filter_results at 1. simpl.
  destruct (loop_body _ _ _ _ _ _ _ item) as [[|]|e]; simpl; [ |  |done].
  - unfold filter_results.
    by destruct (filter_loop _ _ _ _ _ _ _ rest []).
  - by rewrite (filter_loop_acc rest [item]).
Qed.

(** A call returns exactly when no turn raises, and then it returns the
    records whose turn appends, in their order. *)
Lemma filter_results_Ok (results out : list record) :
  run results = Ok out <->
  forallb (fun item => negb (raises (body item))) results = true /\
  out = List.filter (fun item => appends (body item)) results.
Proof.
  revert out. induction results as [|item rest IH]; intros out.
  - unfold filter_results. simpl. split.
    + by intros [= <-].
    + by intros [_ ->].
  - rewrite filter_results_cons. simpl.
    destruct (body item) as [[|]|e] eqn:Hb; simpl.
    + destruct (run rest) as [out'|e] eqn:Hr; simpl.
      * destruct (proj1 (IH out') eq_refl) as [Hall ->]. rewrite Hall.
        split; [by intros [= <-] | by intros [_ ->]].
      * split; [done|]. intros [Hall _].
        by pose proof (proj2 (IH _) (conj Hall eq_refl)).
    + destruct (run rest) as [out'|e] eqn:Hr; simpl.
      * destruct (proj1 (IH out') eq_refl) as [Hall ->]. rewrite Hall.
        split; [by intros [= <-] | by intros [_ ->]].
      * split; [done|]. intros [Hall _].
        by pose proof (proj2 (IH _) (conj Hall eq_refl)).
    + split; [done | by intros [? _]].
Qed.

End Loop.

(** ** Lists *)

Lemma filter_sublist {A : Type} (f : A -> bool) (l : list A) :
  List.filter f l `sublist_of` l.
Proof.
  induction l as [|x l IH]; simpl; [constructor|].
  destruct (f x); by constructor.
Qed.

Lemma filter_all {A : Type} (f : A -> bool) (l : list A) :
  forallb f l = true -> List.filter f l = l.
Proof.
  induction l as [|x l IH]; simpl; [done|].
  intros [-> Hl]%andb_true_iff. by rewrite IH.
Qed.

Lemma forallb_filter_same {A : Type} (f : A -> bool) (l : list A) :
  forallb f (List.filter f l) = true.
Proof.
  induction l as [|x l IH]; simpl; [done|].
  destruct (f x) eqn:Hx; simpl; [by rewrite Hx|done].
Qed.

Lemma forallb_weaken {A : Type} (f g : A -> bool) (l : list A) :
  (forall x, f x = true -> g x = true) ->
  forallb f l = true -> forallb g l = true.
Proof.
  intros Hfg. induction l as [|x l IH]; simpl; [done|].
  intros [Hx Hl]%andb_true_iff. by rewrite (Hfg _ Hx), IH.
Qed.

Lemma filter_agree {A : Type} (f g : A -> bool) (l : list A) :
  forallb (fun x => eqb (f x) (g x)) l = true ->
  List.filter f l = List.filter g l.
Proof.
  induction l as [|x l IH]; simpl; [done|].
  intros [Hx Hl]%andb_true_iff. apply eqb_prop in Hx.
  by rewrite Hx, IH.
Qed.

(** ** Order, idempotence, the empty list, the empty pattern *)

Section Algebra.
Context {L : PyLib}.
Variables (name_pattern : option string)
          (creation_date_from creation_date_to : option date)
          (modified_date_from modified_date_to : option date)
          (accessed_date_from accessed_date_to : option date).

(** C6. Whenever [filter_results] returns, its output is a subsequence of
    its input: the output records are input records (each one a record whose
    turn of the loop appended it), in the order they have in the input. *)
Theorem filter_results_subsequence (results out : list record) :
  filter_results results name_pattern creation_date_from
    creation_date_to modified_date_from modified_date_to accessed_date_from
    accessed_date_to = Ok out ->
  out `sublist_of` results /\
  (forall item, item ∈ out -> item ∈ results) /\
  out = List.filter (fun item =>
          appends (loop_body name_pattern creation_date_from creation_date_to
                     modified_date_from modified_date_to accessed_date_from
                     accessed_date_to item)) results.
Proof.
  intros [_ ->]%filter_results_Ok.
  pose proof (filter_sublist (fun item =>
    appends (loop_body name_pattern creation_date_from creation_date_to
               modified_date_from modified_date_to accessed_date_from
               accessed_date_to item)) results) as Hs.
  split; [done|]. split; [|done].
  intros item Hin. by eapply (sublist_subseteq _ _ Hs).
Qed.

(** C8. [filter_results] is idempotent: filtering the output of a call
    again, with the same arguments, returns that output; and when the first
    call raises, so does the composition, with the same exception. *)
Theorem filter_results_idempotent (results : list record) :
  (let! out :=
     filter_results results name_pattern creation_date_from
       creation_date_to modified_date_from modified_date_to accessed_date_from
       accessed_date_to in
   filter_results out name_pattern creation_date_from
     creation_date_to modified_date_from modified_date_to accessed_date_from
     accessed_date_to)
  = filter_results results name_pattern creation_date_from
      creation_date_to modified_date_from modified_date_to accessed_date_from
      accessed_date_to.
Proof.
  destruct (filter_results results _ _ _ _ _ _ _) as [out|e] eqn:Hrun;
    simpl; [|done].
  apply filter_results_Ok in Hrun as [_ ->].
  apply filter_results_Ok. split.
  - eapply forallb_weaken; [|apply forallb_filter_same].
    intros item. simpl. by destruct (loop_body _ _ _ _ _ _ _ item) as [[|]|].
  - symmetry. apply filter_all, forallb_filter_same.
Qed.

(** C10. On the empty list [filter_results] returns the empty list, whatever
    the pattern (one that does not compile included) and the bounds. *)
Theorem filter_results_nil :
  filter_results [] name_pattern creation_date_from
    creation_date_to modified_date_from modified_date_to accessed_date_from
    accessed_date_to = Ok [].
Proof. reflexivity. Qed.

End Algebra.

(** C9. The empty pattern is no pattern: a call with [name_pattern = ''] is
    the call with [name_pattern = None], for every list of records and all
    bounds, in what it returns and in what it raises. *)
Theorem empty_pattern_is_no_pattern {L : PyLib}
    (creation_date_from creation_date_to : option date)
    (modified_date_from modified_date_to : option date)
    (accessed_date_from accessed_date_to : option date)
    (results : list record) :
  filter_results results (Some "") creation_date_from
    creation_date_to modified_date_from modified_date_to accessed_date_from
    accessed_date_to
  = filter_results results None creation_date_from
    creation_date_to modified_date_from modified_date_to accessed_date_from
    accessed_date_to.
Proof. reflexivity. Qed.

(** ** Comparisons *)

Lemma tuple_cmp_Lt (a b : list Z) :
  tuple_cmp a b = Lt <-> lex_leb b a = false.
Proof.
  revert b. induction a as [|x a IH]; intros [|y b]; simpl; try done.
  destruct (Z.compare_spec x y) as [->|Hlt|Hgt].
  - rewrite Z.ltb_irrefl, Z.eqb_refl. simpl. apply IH.
  - assert ((y <? x) = false) as -> by lia.
    assert ((y =? x) = false) as -> by lia. done.
  - assert ((y <? x) = true) as -> by lia. done.
Qed.

Lemma tuple_cmp_Gt (a b : list Z) :
  tuple_cmp a b = Gt <-> lex_leb a b = false.
Proof.
  revert b. induction a as [|x a IH]; intros [|y b]; simpl; try done.
  destruct (Z.compare_spec x y) as [->|Hlt|Hgt].
  - rewrite Z.ltb_irrefl, Z.eqb_refl. simpl. apply IH.
  - assert ((x <? y) = true) as -> by lia. done.
  - assert ((x <? y) = false) as -> by lia.
    assert ((x =? y) = false) as -> by lia. done.
Qed.

Lemma lex_leb_refl (a : list Z) : lex_leb a a = true.
Proof.
  induction a as [|x a IH]; simpl; [done|].
  by rewrite Z.eqb_refl, IH, orb_true_r.
Qed.

Lemma lex_leb_trans (a b c : list Z) :
  lex_leb a b = true -> lex_leb b c = true -> lex_leb a c = true.
Proof.
  revert b c. induction a as [|x a IH]; intros [|y b] [|z c]; simpl; try done.
  intros Hab Hbc.
  apply orb_true_iff in Hab as [Hxy|[Hxy Hab]%andb_true_iff];
  apply orb_true_iff in Hbc as [Hyz|[Hyz Hbc]%andb_true_iff].
  - assert ((x <? z) = true) as -> by lia. done.
  - assert ((x <? z) = true) as -> by lia. done.
  - assert ((x <? z) = true) as -> by lia. done.
  - assert ((x =? z) = true) as -> by lia.
    by rewrite (IH _ _ Hab Hbc), orb_true_r.
Qed.

(** Two tuples with a common tail compare as their heads do. *)
Lemma lex_leb_app (a b c : list Z) :
  length a = length b ->
  lex_leb a b = true -> lex_leb (a ++ c) (b ++ c) = true.
Proof.
  revert b. induction a as [|x a IH]; intros [|y b]; simpl; try done.
  - intros _ _. apply lex_leb_refl.
  - intros [= Hlen] [Hxy|[Hxy Hab]%andb_true_iff]%orb_true_iff.
    + by rewrite Hxy.
    + by rewrite Hxy, (IH _ Hlen Hab), orb_true_r.
Qed.

Lemma day_start_mono (d d' : date) :
  date_leb d d' = true -> timestamp_leb (day_start d) (day_start d') = true.
Proof. intros H. by apply (lex_leb_app (date_tuple d) (date_tuple d')). Qed.

Lemma day_end_mono (d d' : date) :
  date_leb d d' = true -> timestamp_leb (day_end d) (day_end d') = true.
Proof. intros H. by apply (lex_leb_app (date_tuple d) (date_tuple d')). Qed.

Section Checks.
Context {L : PyLib}.

(** The two tests of a range on a timestamp that can be compared. *)
Lemma before_from_comparable (date_from date_to : option date) (t : datetime) :
  comparable date_from date_to t = true ->
  before_from date_from t = Ok (negb (not_before date_from t)).
Proof.
  unfold comparable, is_naive, before_from, not_before.
  destruct date_from as [d|]; [|done].
  unfold datetime_lt, datetime_cmp.
  change (tzinfo (datetime_combine d datetime_min_time)) with (@None Z).
  change (datetime_combine d datetime_min_time) with (day_start d).
  destruct (tzinfo t); [by destruct date_to|]. intros _.
  unfold bind, timestamp_leb. f_equal.
  pose proof (tuple_cmp_Lt (datetime_tuple t) (datetime_tuple (day_start d)))
    as Hlt.
  destruct (lex_leb _ _).
  - destruct (tuple_cmp _ _); try done. by pose proof (proj1 Hlt eq_refl).
  - by rewrite (proj2 Hlt eq_refl).
Qed.

Lemma after_to_comparable (date_from date_to : option date) (t : datetime) :
  comparable date_from date_to t = true ->
  after_to date_to t = Ok (negb (not_after date_to t)).
Proof.
  unfold comparable, is_naive, after_to, not_after.
  destruct date_to as [d|]; [|done].
  unfold datetime_gt, datetime_cmp.
  change (tzinfo (datetime_combine d datetime_max_time)) with (@None Z).
  change (datetime_combine d datetime_max_time) with (day_end d).
  destruct (tzinfo t); [by destruct date_from|]. intros _.
  unfold bind, timestamp_leb. f_equal.
  pose proof (tuple_cmp_Gt (datetime_tuple t) (datetime_tuple (day_end d)))
    as Hgt.
  destruct (lex_leb _ _).
  - destruct (tuple_cmp _ _); try done. by pose proof (proj1 Hgt eq_refl).
  - by rewrite (proj2 Hgt eq_refl).
Qed.

End Checks.

(** ** One turn of the loop *)

Section Turn.
Context {L : PyLib}.
Variables (name_pattern : option string)
          (creation_date_from creation_date_to : option date)
          (modified_date_from modified_date_to : option date)
          (accessed_date_from accessed_date_to : option date).

Local Abbreviation body := (loop_body name_pattern
  creation_date_from creation_date_to modified_date_from modified_date_to
  accessed_date_from accessed_date_to).
Local Abbreviation run results := (filter_results results name_pattern
  creation_date_from creation_date_to modified_date_from modified_date_to
  accessed_date_from accessed_date_to).
Local Abbreviation sat := (satisfies name_pattern
  creation_date_from creation_date_to modified_date_from modified_date_to
  accessed_date_from accessed_date_to).
Local Abbreviation wf := (well_formed name_pattern
  creation_date_from creation_date_to modified_date_from modified_date_to
  accessed_date_from accessed_date_to).

(** The empty pattern matches everything. *)
Lemma search_empty (rx : Pattern) (f : re_flag) (s : string) :
  re_compile "" f = Some rx -> Pattern_search rx s = true.
Proof.
  destruct (re_compile_empty f) as (rx' & Hc & Hs).
  rewrite Hc. by intros [= <-].
Qed.

(** Where the name predicate can be evaluated, the name test of the loop
    computes it. *)
Lemma name_filter_named (item : record) :
  named name_pattern item = true ->
  name_filter name_pattern item = Ok (name_matches name_pattern item).
Proof.
  unfold named, name_filter, name_matches.
  destruct name_pattern as [p|]; [|done].
  destruct (re_compile p IGNORECASE) as [rx|] eqn:Hc; [|done].
  destruct (dict_get item "FullName" (PStr "")) as [| | |s| |]; try done.
  intros _. destruct p as [|c p]; simpl.
  - by rewrite (search_empty rx IGNORECASE).
  - unfold re_search. by rewrite Hc.
Qed.

Lemma name_filter_rejects (item : record) :
  name_rejects name_pattern item = true ->
  name_pattern <> Some "" /\
  name_filter name_pattern item = Ok false /\
  name_matches name_pattern item = false.
Proof.
  unfold name_rejects, name_filter, name_matches.
  destruct name_pattern as [p|]; [|done].
  destruct (re_compile p IGNORECASE) as [rx|] eqn:Hc; [|done].
  destruct (dict_get item "FullName" (PStr "")) as [| | |s| |]; try done.
  intros Hs%negb_true_iff. destruct p as [|c p]; simpl.
  - by rewrite (search_empty rx IGNORECASE) in Hs.
  - unfold re_search. by rewrite Hc, Hs.
Qed.

(** A record the name predicate rejects is skipped before its timestamps
    are read. *)
Lemma loop_body_rejects (item : record) :
  name_rejects name_pattern item = true ->
  body item = Ok Continue /\ sat item = false.
Proof.
  intros (_ & Hf & Hm)%name_filter_rejects.
  unfold loop_body, satisfies. by rewrite Hf, Hm.
Qed.

(** On a record whose name predicate can be evaluated and whose timestamps
    parse and can be compared, the turn appends exactly when the record
    satisfies the specification. *)
Lemma loop_body_well_formed (item : record) :
  wf item = true ->
  body item = Ok (if sat item then Append else Continue).
Proof.
  unfold well_formed, timestamps_comparable, loop_body, satisfies,
    field_in_range, in_range.
  intros [Hn Ht]%andb_true_iff.
  rewrite (name_filter_named item Hn).
  destruct (name_matches name_pattern item); [|done].
  destruct (parse_time item "CreationTime") as [tc|]; [|done].
  destruct (parse_time item "LastWriteTime") as [tm|]; [|done].
  destruct (parse_time item "LastAccessTime") as [ta|]; [|done].
  apply andb_true_iff in Ht as [[Hc Hm]%andb_true_iff Ha].
  unfold bind at 1. unfold negb at 1. unfold bind at 1 2 3.
  rewrite (before_from_comparable _ _ _ Hc), (after_to_comparable _ _ _ Hc),
    (before_from_comparable _ _ _ Hm), (after_to_comparable _ _ _ Hm),
    (before_from_comparable _ _ _ Ha), (after_to_comparable _ _ _ Ha).
  unfold bind.
  destruct (not_before creation_date_from tc); [|done].
  destruct (not_after creation_date_to tc); [|done].
  destruct (not_before modified_date_from tm); [|done].
  destruct (not_after modified_date_to tm); [|done].
  destruct (not_before accessed_date_from ta); [|done].
  by destruct (not_after accessed_date_to ta).
Qed.

(** The result of a call on records that are either rejected by the name
    predicate or well formed. *)
Lemma filter_results_satisfies (results : list record) :
  forallb (fun item => name_rejects name_pattern item || wf item) results
    = true ->
  run results = Ok (List.filter sat results).
Proof.
  intros Hall. apply filter_results_Ok. split.
  - eapply forallb_weaken; [|exact Hall]. intros item.
    intros [Hr|Hw]%orb_true_iff.
    + by rewrite (proj1 (loop_body_rejects item Hr)).
    + by rewrite (loop_body_well_formed item Hw).
  - apply filter_agree. eapply forallb_weaken; [|exact Hall]. intros item.
    intros [Hr|Hw]%orb_true_iff.
    + destruct (loop_body_rejects item Hr) as [-> ->]. done.
    + rewrite (loop_body_well_formed item Hw). by destruct (sat item).
Qed.

End Turn.

(** * The claims *)

Section Claims.
Context {L : PyLib}.
Variables (name_pattern : option string)
          (creation_date_from creation_date_to : option date)
          (modified_date_from modified_date_to : option date)
          (accessed_date_from accessed_date_to : option date).

(** C1, as amended.  [filter_results] does not raise on a record whose
    timestamp fields are missing or malformed when the name predicate rejects
    the record, that is when the pattern compiles, the [FullName] of the
    record is a string or is absent, and its base name holds no match: the
    turn of the loop continues before any timestamp is read, and the record
    is not in the output.  For the other records the three timestamp fields
    all count, whichever ranges are set: a call returns, with exactly the
    records that pass the name predicate and the three ranges, whenever
    every record either is rejected by the name predicate in that way, or is
    one on which the name predicate can be evaluated (there is no pattern,
    or the pattern compiles and [FullName] is a string or is absent) and
    whose three timestamp fields hold strings that parse, to timestamps
    without offset wherever a bound is set for the field. *)
Theorem malformed_timestamps_and_name_predicate (results : list record) :
  forallb (fun item =>
      name_rejects name_pattern item ||
      well_formed name_pattern creation_date_from creation_date_to
        modified_date_from modified_date_to accessed_date_from
        accessed_date_to item) results = true ->
  filter_results results name_pattern creation_date_from
    creation_date_to modified_date_from modified_date_to accessed_date_from
    accessed_date_to
  = Ok (List.filter
          (satisfies name_pattern creation_date_from creation_date_to
             modified_date_from modified_date_to accessed_date_from
             accessed_date_to) results) /\
  forall item, name_rejects name_pattern item = true ->
    loop_body name_pattern creation_date_from creation_date_to
      modified_date_from modified_date_to accessed_date_from accessed_date_to
      item = Ok Continue /\
    item ∉ List.filter
             (satisfies name_pattern creation_date_from creation_date_to
                modified_date_from modified_date_to accessed_date_from
                accessed_date_to) results.
Proof.
  intros Hall. split; [by apply filter_results_satisfies|].
  intros item Hr.
  destruct (loop_body_rejects name_pattern creation_date_from
    creation_date_to modified_date_from modified_date_to accessed_date_from
    accessed_date_to item Hr) as [Hb Hs].
  split; [done|]. rewrite list_elem_of_In, filter_In. intros [_ Hsat].
  by rewrite Hs in Hsat.
Qed.

(** C3, as amended.  On records whose name predicate can be evaluated and
    whose three timestamps parse and can be compared with the bounds set for
    them (timestamps without offset always can), the output is the list of
    the records that pass the name predicate and, for each of the three
    ranges, are at or after 00:00:00.000 of the from-date when it is set and
    at or before 23:59:59.999999 of the to-date when it is set, in the order
    of the input. *)
Theorem date_ranges_conjunctive (results : list record) :
  forallb (well_formed name_pattern creation_date_from creation_date_to
             modified_date_from modified_date_to accessed_date_from
             accessed_date_to) results = true ->
  filter_results results name_pattern creation_date_from
    creation_date_to modified_date_from modified_date_to accessed_date_from
    accessed_date_to
  = Ok (List.filter
          (satisfies name_pattern creation_date_from creation_date_to
             modified_date_from modified_date_to accessed_date_from
             accessed_date_to) results).
Proof.
  intros Hall. apply filter_results_satisfies.
  eapply forallb_weaken; [|exact Hall].
  intros item ->. apply orb_true_r.
Qed.

End Claims.

(** C4, as amended.  With no pattern and no bound, [filter_results] returns
    its input, every record unchanged and in the original order, whenever
    the three timestamp fields of every record are strings that parse. *)
Theorem empty_spec_is_identity {L : PyLib} (results : list record) :
  forallb timestamps_parse results = true ->
  filter_results results None None None None None None None = Ok results.
Proof.
  intros Hall. apply filter_results_Ok.
  assert (forall item, timestamps_parse item = true ->
    loop_body None None None None None None None item = Ok Append) as Hbody.
  { intros item. unfold timestamps_parse, loop_body.
    destruct (parse_time item "CreationTime"); [|done].
    destruct (parse_time item "LastWriteTime"); [|done].
    by destruct (parse_time item "LastAccessTime"). }
  split.
  - eapply forallb_weaken; [|exact Hall].
    intros item Hi. by rewrite (Hbody item Hi).
  - symmetry. apply filter_all.
    eapply forallb_weaken; [|exact Hall].
    intros item Hi. by rewrite (Hbody item Hi).
Qed.

Section Name.
Context {L : PyLib}.
Variables (creation_date_from creation_date_to : option date)
          (modified_date_from modified_date_to : option date)
          (accessed_date_from accessed_date_to : option date).


(** C2, as amended.  When [name_pattern] is a non-empty string that does not
    compile, [filter_results] returns the empty list on the empty list, and
    raises on every other list, in the first turn of the loop, whatever the
    timestamp fields of the records hold and whatever bounds are set; what it
    raises is the error of the pattern whenever the first record's [FullName]
    is a string or is absent. *)
Theorem invalid_pattern_raises_in_first_turn
    (pattern : string) (item : record) (rest : list record) :
  pattern <> "" ->
  re_compile pattern IGNORECASE = None ->
  filter_results [] (Some pattern) creation_date_from
    creation_date_to modified_date_from modified_date_to accessed_date_from
    accessed_date_to = Ok [] /\
  raises (loop_body (Some pattern) creation_date_from creation_date_to
            modified_date_from modified_date_to accessed_date_from
            accessed_date_to item) = true /\
  raises (filter_results (item :: rest) (Some pattern) creation_date_from
            creation_date_to modified_date_from modified_date_to
            accessed_date_from accessed_date_to) = true /\
  (forall full_name, dict_get item "FullName" (PStr "") = PStr full_name ->
     filter_results (item :: rest) (Some pattern) creation_date_from
       creation_date_to modified_date_from modified_date_to accessed_date_from
       accessed_date_to = Raise ReError).
Proof.
  intros Hne Hc. split; [done|].
  rewrite filter_results_cons. unfold loop_body, name_filter.
  destruct pattern as [|c p]; [done|]. simpl truthy_pattern. cbv beta.
  unfold re_search. rewrite Hc. repeat split.
  - by destruct (dict_get item "FullName" (PStr "")).
  - by destruct (dict_get item "FullName" (PStr "")).
  - by intros full_name ->.
Qed.

End Name.

(** ** Narrowing a range *)

Lemma filter_sublist_mono {A : Type} (f g : A -> bool) (l : list A) :
  (forall x, f x = true -> g x = true) ->
  List.filter f l `sublist_of` List.filter g l.
Proof.
  intros Hfg. induction l as [|x l IH]; simpl; [constructor|].
  destruct (f x) eqn:Hf.
  - rewrite (Hfg _ Hf). by constructor.
  - destruct (g x); [by constructor|done].
Qed.

Section Narrowing.
Context {L : PyLib}.

(** A timestamp that passes the lower test of the narrower range passes the
    one of the wider range. *)
Lemma before_from_within (date_from date_from' : option date) (t : datetime) :
  from_within date_from date_from' = true ->
  before_from date_from' t = Ok false ->
  before_from date_from t = Ok false.
Proof.
  destruct date_from as [d|]; [|done].
  destruct date_from' as [d'|]; [|done]. simpl. intros Hd.
  unfold datetime_lt, datetime_cmp.
  change (tzinfo (datetime_combine d datetime_min_time)) with (@None Z).
  change (tzinfo (datetime_combine d' datetime_min_time)) with (@None Z).
  change (datetime_combine d datetime_min_time) with (day_start d).
  change (datetime_combine d' datetime_min_time) with (day_start d').
  destruct (tzinfo t); [done|]. unfold bind.
  pose proof (tuple_cmp_Lt (datetime_tuple t) (datetime_tuple (day_start d)))
    as Hw.
  pose proof (tuple_cmp_Lt (datetime_tuple t) (datetime_tuple (day_start d')))
    as Hn.
  pose proof (lex_leb_trans _ _ (datetime_tuple t) (day_start_mono d d' Hd))
    as Htrans.
  destruct (lex_leb (datetime_tuple (day_start d')) (datetime_tuple t)).
  - specialize (Htrans eq_refl).
    destruct (tuple_cmp (datetime_tuple t) (datetime_tuple (day_start d)));
      try done.
    rewrite Htrans in Hw. by pose proof (proj1 Hw eq_refl).
  - by rewrite (proj2 Hn eq_refl).
Qed.

Lemma after_to_within (date_to date_to' : option date) (t : datetime) :
  to_within date_to date_to' = true ->
  after_to date_to' t = Ok false ->
  after_to date_to t = Ok false.
Proof.
  destruct date_to as [d|]; [|done].
  destruct date_to' as [d'|]; [|done]. simpl. intros Hd.
  unfold datetime_gt, datetime_cmp.
  change (tzinfo (datetime_combine d datetime_max_time)) with (@None Z).
  change (tzinfo (datetime_combine d' datetime_max_time)) with (@None Z).
  change (datetime_combine d datetime_max_time) with (day_end d).
  change (datetime_combine d' datetime_max_time) with (day_end d').
  destruct (tzinfo t); [done|]. unfold bind.
  pose proof (tuple_cmp_Gt (datetime_tuple t) (datetime_tuple (day_end d)))
    as Hw.
  pose proof (tuple_cmp_Gt (datetime_tuple t) (datetime_tuple (day_end d')))
    as Hn.
  pose proof (fun H => lex_leb_trans (datetime_tuple t) _ _ H
    (day_end_mono d' d Hd)) as Htrans.
  destruct (lex_leb (datetime_tuple t) (datetime_tuple (day_end d'))).
  - specialize (Htrans eq_refl).
    destruct (tuple_cmp (datetime_tuple t) (datetime_tuple (day_end d)));
      try done.
    unfold timestamp_leb in Htrans.
    rewrite Htrans in Hw. by pose proof (proj1 Hw eq_refl).
  - by rewrite (proj2 Hn eq_refl).
Qed.

(** Where the wider range sets every bound the narrower one sets, a test of
    the wider range that returns has its counterpart return, and reject when
    it rejects. *)
Lemma before_from_returns (date_from date_from' : option date)
    (t : datetime) (b : bool) :
  from_within date_from date_from' = true ->
  no_new_bound date_from date_from' = true ->
  before_from date_from t = Ok b ->
  exists b', before_from date_from' t = Ok b' /\ (b = true -> b' = true).
Proof.
  intros Hw Hnew Hb.
  destruct (before_from date_from' t) as [[|]|e] eqn:Hn.
  - by exists true.
  - exists false. split; [done|].
    rewrite (before_from_within _ _ _ Hw Hn) in Hb. by injection Hb as <-.
  - exfalso. destruct date_from as [d|]; destruct date_from' as [d'|];
      try done. simpl in *. unfold datetime_lt, datetime_cmp in *.
    change (tzinfo (datetime_combine d datetime_min_time)) with (@None Z) in *.
    change (tzinfo (datetime_combine d' datetime_min_time)) with (@None Z) in *.
    by destruct (tzinfo t).
Qed.

Lemma after_to_returns (date_to date_to' : option date)
    (t : datetime) (b : bool) :
  to_within date_to date_to' = true ->
  no_new_bound date_to date_to' = true ->
  after_to date_to t = Ok b ->
  exists b', after_to date_to' t = Ok b' /\ (b = true -> b' = true).
Proof.
  intros Hw Hnew Hb.
  destruct (after_to date_to' t) as [[|]|e] eqn:Hn.
  - by exists true.
  - exists false. split; [done|].
    rewrite (after_to_within _ _ _ Hw Hn) in Hb. by injection Hb as <-.
  - exfalso. destruct date_to as [d|]; destruct date_to' as [d'|];
      try done. simpl in *. unfold datetime_gt, datetime_cmp in *.
    change (tzinfo (datetime_combine d datetime_max_time)) with (@None Z) in *.
    change (tzinfo (datetime_combine d' datetime_max_time)) with (@None Z) in *.
    by destruct (tzinfo t).
Qed.

End Narrowing.

Lemma from_within_refl (bound : option date) : from_within bound bound = true.
Proof. destruct bound; [apply lex_leb_refl|done]. Qed.

Lemma to_within_refl (bound : option date) : to_within bound bound = true.
Proof. destruct bound; [apply lex_leb_refl|done]. Qed.

Lemma no_new_bound_refl (bound : option date) : no_new_bound bound bound = true.
Proof. by destruct bound. Qed.

Section Within.
Context {L : PyLib}.
Variables (name_pattern : option string)
          (creation_date_from creation_date_to : option date)
          (modified_date_from modified_date_to : option date)
          (accessed_date_from accessed_date_to : option date)
          (creation_date_from' creation_date_to' : option date)
          (modified_date_from' modified_date_to' : option date)
          (accessed_date_from' accessed_date_to' : option date).
Hypotheses
  (Hcf : from_within creation_date_from creation_date_from' = true)
  (Hct : to_within creation_date_to creation_date_to' = true)
  (Hmf : from_within modified_date_from modified_date_from' = true)
  (Hmt : to_within modified_date_to modified_date_to' = true)
  (Haf : from_within accessed_date_from accessed_date_from' = true)
  (Hat : to_within accessed_date_to accessed_date_to' = true).

Local Abbreviation wide := (loop_body name_pattern
  creation_date_from creation_date_to modified_date_from modified_date_to
  accessed_date_from accessed_date_to).
Local Abbreviation narrow := (loop_body name_pattern
  creation_date_from' creation_date_to' modified_date_from' modified_date_to'
  accessed_date_from' accessed_date_to').
Local Abbreviation run_wide results := (filter_results results name_pattern
  creation_date_from creation_date_to modified_date_from modified_date_to
  accessed_date_from accessed_date_to).
Local Abbreviation run_narrow results := (filter_results results
  name_pattern
  creation_date_from' creation_date_to' modified_date_from' modified_date_to'
  accessed_date_from' accessed_date_to').

(** A record the narrower call appends is appended by the wider call. *)
Lemma loop_body_within (item : record) :
  narrow item = Ok Append -> wide item = Ok Append.
Proof.
  unfold loop_body.
  destruct (name_filter name_pattern item) as [[|]|]; try done.
  destruct (parse_time item "CreationTime") as [tc|]; [|done].
  destruct (parse_time item "LastWriteTime") as [tm|]; [|done].
  destruct (parse_time item "LastAccessTime") as [ta|]; [|done].
  cbn [bind negb].
  destruct (before_from creation_date_from' tc) as [[|]|] eqn:H1; try done.
  rewrite (before_from_within _ _ _ Hcf H1). cbn [bind].
  destruct (after_to creation_date_to' tc) as [[|]|] eqn:H2; try done.
  rewrite (after_to_within _ _ _ Hct H2). cbn [bind].
  destruct (before_from modified_date_from' tm) as [[|]|] eqn:H3; try done.
  rewrite (before_from_within _ _ _ Hmf H3). cbn [bind].
  destruct (after_to modified_date_to' tm) as [[|]|] eqn:H4; try done.
  rewrite (after_to_within _ _ _ Hmt H4). cbn [bind].
  destruct (before_from accessed_date_from' ta) as [[|]|] eqn:H5; try done.
  rewrite (before_from_within _ _ _ Haf H5). cbn [bind].
  destruct (after_to accessed_date_to' ta) as [[|]|] eqn:H6; try done.
  by rewrite (after_to_within _ _ _ Hat H6).
Qed.

Lemma filter_results_within (results : list record) :
  at_most_as_many (run_narrow results) (run_wide results).
Proof.
  intros out out' [_ ->]%filter_results_Ok [_ ->]%filter_results_Ok.
  assert (List.filter (fun item => appends (narrow item)) results
            `sublist_of`
          List.filter (fun item => appends (wide item)) results) as Hs.
  { apply filter_sublist_mono. intros item Hn.
    destruct (narrow item) as [[|]|] eqn:Hb; try done.
    by rewrite (loop_body_within item Hb). }
  split; [done|]. by apply sublist_length.
Qed.

Hypotheses
  (Ncf : no_new_bound creation_date_from creation_date_from' = true)
  (Nct : no_new_bound creation_date_to creation_date_to' = true)
  (Nmf : no_new_bound modified_date_from modified_date_from' = true)
  (Nmt : no_new_bound modified_date_to modified_date_to' = true)
  (Naf : no_new_bound accessed_date_from accessed_date_from' = true)
  (Nat : no_new_bound accessed_date_to accessed_date_to' = true).

(** Where the narrower specification sets no bound the wider one leaves
    open, a turn that does not raise under the wider one does not raise
    under the narrower one. *)
Lemma loop_body_returns (item : record) :
  raises (wide item) = false -> raises (narrow item) = false.
Proof.
  unfold loop_body.
  destruct (name_filter name_pattern item) as [[|]|]; try done.
  destruct (parse_time item "CreationTime") as [tc|]; [|done].
  destruct (parse_time item "LastWriteTime") as [tm|]; [|done].
  destruct (parse_time item "LastAccessTime") as [ta|]; [|done].
  cbn [bind negb].
  destruct (before_from creation_date_from tc) as [b1|] eqn:H1; [|done].
  destruct (before_from_returns _ _ _ _ Hcf Ncf H1) as (b1' & -> & I1).
  cbn [bind]. destruct b1'; [done|].
  destruct b1; [by specialize (I1 eq_refl)|].
  destruct (after_to creation_date_to tc) as [b2|] eqn:H2; [|done].
  destruct (after_to_returns _ _ _ _ Hct Nct H2) as (b2' & -> & I2).
  cbn [bind]. destruct b2'; [done|].
  destruct b2; [by specialize (I2 eq_refl)|].
  destruct (before_from modified_date_from tm) as [b3|] eqn:H3; [|done].
  destruct (before_from_returns _ _ _ _ Hmf Nmf H3) as (b3' & -> & I3).
  cbn [bind]. destruct b3'; [done|].
  destruct b3; [by specialize (I3 eq_refl)|].
  destruct (after_to modified_date_to tm) as [b4|] eqn:H4; [|done].
  destruct (after_to_returns _ _ _ _ Hmt Nmt H4) as (b4' & -> & I4).
  cbn [bind]. destruct b4'; [done|].
  destruct b4; [by specialize (I4 eq_refl)|].
  destruct (before_from accessed_date_from ta) as [b5|] eqn:H5; [|done].
  destruct (before_from_returns _ _ _ _ Haf Naf H5) as (b5' & -> & I5).
  cbn [bind]. destruct b5'; [done|].
  destruct b5; [by specialize (I5 eq_refl)|].
  destruct (after_to accessed_date_to ta) as [b6|] eqn:H6; [|done].
  destruct (after_to_returns _ _ _ _ Hat Nat H6) as (b6' & -> & I6).
  cbn [bind]. by destruct b6'.
Qed.

Lemma filter_results_returns (results : list record) :
  returns_with (run_narrow results) (run_wide results).
Proof.
  intros out [Hall _]%filter_results_Ok. eexists.
  apply filter_results_Ok. split; [|reflexivity].
  eapply forallb_weaken; [|exact Hall]. intros item Hw. simpl in *.
  apply negb_true_iff in Hw. apply negb_true_iff.
  by apply loop_body_returns.
Qed.

End Within.

(** C7.  For a fixed list of records, and two calls that differ in one date
    range only (the creation, the modified or the accessed one), the second
    range [[date_from', date_to']] within the first [[date_from, date_to]]:
    the call with the narrower range returns at most as many records as the
    call with the wider one, and indeed a subsequence of its output; and it
    does return whenever the wider call does, provided the narrower range
    sets no bound that the wider one leaves open. *)
Theorem narrowing_a_range_never_adds {L : PyLib}
    (name_pattern : option string)
    (creation_date_from creation_date_to : option date)
    (modified_date_from modified_date_to : option date)
    (accessed_date_from accessed_date_to : option date)
    (date_from date_to date_from' date_to' : option date)
    (results : list record) :
  from_within date_from date_from' = true ->
  to_within date_to date_to' = true ->
  (at_most_as_many
     (filter_results results name_pattern date_from' date_to'
        modified_date_from modified_date_to
        accessed_date_from accessed_date_to)
     (filter_results results name_pattern date_from date_to
        modified_date_from modified_date_to
        accessed_date_from accessed_date_to) /\
   at_most_as_many
     (filter_results results name_pattern
        creation_date_from creation_date_to date_from' date_to'
        accessed_date_from accessed_date_to)
     (filter_results results name_pattern
        creation_date_from creation_date_to date_from date_to
        accessed_date_from accessed_date_to) /\
   at_most_as_many
     (filter_results results name_pattern
        creation_date_from creation_date_to
        modified_date_from modified_date_to date_from' date_to')
     (filter_results results name_pattern
        creation_date_from creation_date_to
        modified_date_from modified_date_to date_from date_to)) /\
  (no_new_bound date_from date_from' = true ->
   no_new_bound date_to date_to' = true ->
   returns_with
     (filter_results results name_pattern date_from' date_to'
        modified_date_from modified_date_to
        accessed_date_from accessed_date_to)
     (filter_results results name_pattern date_from date_to
        modified_date_from modified_date_to
        accessed_date_from accessed_date_to) /\
   returns_with
     (filter_results results name_pattern
        creation_date_from creation_date_to date_from' date_to'
        accessed_date_from accessed_date_to)
     (filter_results results name_pattern
        creation_date_from creation_date_to date_from date_to
        accessed_date_from accessed_date_to) /\
   returns_with
     (filter_results results name_pattern
        creation_date_from creation_date_to
        modified_date_from modified_date_to date_from' date_to')
     (filter_results results name_pattern
        creation_date_from creation_date_to
        modified_date_from modified_date_to date_from date_to)).
Proof.
  intros Hf Ht. split; [|intros Nf Nt]; (split; [|split]).
  all: first [ apply filter_results_within | apply filter_results_returns ].
  all: auto using from_within_refl, to_within_refl, no_new_bound_refl.
Qed.

(** * The claims on the records of the examples *)

Section Witnesses.
Import Examples.

(** The name predicate rejects a record without creation time and a
    directory whose creation time is not a timestamp: the call returns. *)
Lemma malformed_timestamps_and_name_predicate_witness :
  forallb (fun item => name_rejects (Some "beta") item ||
                       well_formed (Some "beta") None None None None None None
                         item) [no_creation; beta; bad_creation] = true /\
  filter_results [no_creation; beta; bad_creation] (Some "beta")
    None None None None None None = Ok [beta] /\
  loop_body (Some "beta") None None None None None None no_creation
    = Ok Continue /\
  loop_body (Some "beta") None None None None None None bad_creation
    = Ok Continue.
Proof.
  assert (forallb (fun item => name_rejects (Some "beta") item ||
                       well_formed (Some "beta") None None None None None None
                         item) [no_creation; beta; bad_creation] = true)
    as Hall by (vm_compute; reflexivity).
  split; [exact Hall|].
  destruct (malformed_timestamps_and_name_predicate (Some "beta")
    None None None None None None [no_creation; beta; bad_creation] Hall)
    as [Hrun Hrej].
  split; [|split].
  - rewrite Hrun. vm_compute. reflexivity.
  - apply (Hrej no_creation). vm_compute. reflexivity.
  - apply (Hrej bad_creation). vm_compute. reflexivity.
Defined.

(** A directory whose creation time is the text "yesterday", and whose two
    other timestamps parse: a call with bounds on the accessed time only,
    which the accessed time satisfies, raises; so does a call with a pattern
    that matches the name and no bound.  Neither returns the record. *)
Lemma malformed_timestamp_raises :
  dict_get bad_creation "CreationTime" (PStr "") = PStr "yesterday" /\
  filter_results [bad_creation] None None None None None (Some jan1)
    (Some jan1) = Raise ValueError /\
  filter_results [bad_creation] (Some "old") None None None None None None
    = Raise ValueError /\
  filter_results [bad_creation] None None None None None (Some jan1)
    (Some jan1) <> Ok [bad_creation].
Proof.
  split; [vm_compute; reflexivity|]. split; [vm_compute; reflexivity|].
  split; [vm_compute; reflexivity|]. vm_compute. discriminate.
Qed.

Lemma invalid_pattern_raises_in_first_turn_witness :
  "[" <> "" /\ re_compile "[" IGNORECASE = None /\
  filter_results [bad_creation; alpha] (Some "[")
    None (Some jan1) None None None None = Raise ReError.
Proof.
  split; [discriminate|]. split; [reflexivity|].
  apply (invalid_pattern_raises_in_first_turn None (Some jan1) None None None
           None "[" bad_creation [alpha]) with (full_name := "/data/2022/old");
    [discriminate | reflexivity | vm_compute; reflexivity].
Defined.

(** The pattern ["["] does not compile, and the call on the empty list
    returns: nothing is signalled. *)
Lemma invalid_pattern_on_empty_list :
  re_compile "[" IGNORECASE = None /\
  filter_results [] (Some "[") None None None None None None = Ok [].
Proof. split; reflexivity. Qed.

(** Boundary of a range: the last microsecond of the day is in, the start of
    the next day is out. *)
Lemma date_ranges_conjunctive_witness :
  forallb (well_formed None None None (Some jan1) (Some jan1) None None)
    [last_instant; next_day] = true /\
  filter_results [last_instant; next_day] None
    None None (Some jan1) (Some jan1) None None = Ok [last_instant].
Proof.
  assert (forallb (well_formed None None None (Some jan1) (Some jan1) None None)
            [last_instant; next_day] = true) as Hall
    by (vm_compute; reflexivity).
  split; [exact Hall|].
  rewrite (date_ranges_conjunctive None None None (Some jan1) (Some jan1)
             None None [last_instant; next_day] Hall).
  vm_compute. reflexivity.
Defined.

(** The modified time of both records parses and lies in the range, yet the
    call raises: the creation time of the first record is not a timestamp,
    and the timestamps of the second have an offset. *)
Lemma parsed_timestamp_yet_raises :
  parse_time bad_creation "LastWriteTime"
    = Ok (mkdatetime jan1 (mktime 12 0 0 0) None) /\
  filter_results [bad_creation] None None None (Some jan1) (Some jan1) None
    None = Raise ValueError /\
  parse_time utc "LastWriteTime"
    = Ok (mkdatetime jan1 (mktime 12 0 0 0) (Some 0)) /\
  filter_results [utc] None None None (Some jan1) (Some jan1) None None
    = Raise TypeError.
Proof. repeat split; vm_compute; reflexivity. Qed.

Lemma empty_spec_is_identity_witness :
  forallb timestamps_parse [alpha; utc; beta] = true /\
  filter_results [alpha; utc; beta] None None None None None None None
    = Ok [alpha; utc; beta].
Proof.
  assert (forallb timestamps_parse [alpha; utc; beta] = true) as Hall
    by (vm_compute; reflexivity).
  split; [exact Hall|].
  exact (empty_spec_is_identity [alpha; utc; beta] Hall).
Defined.

(** With no pattern and no bound, a list with a record whose creation time is
    not a timestamp is not returned: the call raises. *)
Lemma empty_spec_raises :
  filter_results [alpha; bad_creation] None None None None None None None
    = Raise ValueError /\
  filter_results [alpha; bad_creation] None None None None None None None
    <> Ok [alpha; bad_creation].
Proof. split; [vm_compute; reflexivity|]. vm_compute. discriminate. Qed.


Lemma filter_results_subsequence_witness :
  filter_results [alpha; beta; report] (Some "beta")
    None None None None None None = Ok [beta] /\
  [beta] `sublist_of` [alpha; beta; report].
Proof.
  assert (filter_results [alpha; beta; report] (Some "beta")
            None None None None None None = Ok [beta]) as Hrun
    by (vm_compute; reflexivity).
  split; [exact Hrun|].
  exact (proj1 (filter_results_subsequence (Some "beta") None None None None
                  None None [alpha; beta; report] [beta] Hrun)).
Defined.

Lemma narrowing_a_range_never_adds_witness :
  from_within (Some jan1) (Some apr1) = true /\
  to_within (Some dec31) (Some dec31) = true /\
  at_most_as_many
    (filter_results [alpha; beta] None (Some apr1) (Some dec31) None None None
       None)
    (filter_results [alpha; beta] None (Some jan1) (Some dec31) None None None
       None).
Proof.
  split; [reflexivity|]. split; [reflexivity|].
  exact (proj1 (proj1 (narrowing_a_range_never_adds None None None None None
    None None (Some jan1) (Some dec31) (Some apr1) (Some dec31) [alpha; beta]
    eq_refl eq_refl))).
Defined.

(** The scenarios of the specification. *)
Example scenario_name_pattern :
  filter_results [alpha; beta] (Some "alpha") None None None None None None
    = Ok [alpha].
Proof. vm_compute. reflexivity. Qed.

Example scenario_created_range :
  filter_results [alpha; beta] None (Some apr1) (Some dec31) None None None
    None = Ok [beta].
Proof. vm_compute. reflexivity. Qed.

(** The pattern is searched in the base name, not in the directories. *)
Example full_path_is_not_searched :
  filter_results [in_report_dir; report] (Some "report")
    None None None None None None = Ok [report].
Proof. vm_compute. reflexivity. Qed.

End Witnesses.

(** * The providers *)

Section ProviderProperties.
Context {H : PyHost}.

Lemma scan_acc (w : walk) (acc : list record) :
  scan w acc = (fun results => acc ++ results) <$> scan w [].
Proof.
  revert acc. induction w as [| |item rest IH]; intros acc; simpl.
  - by rewrite app_nil_r.
  - done.
  - destruct (item_info item) as [info|[|]]; [|apply IH|done].
    rewrite (IH (acc ++ [info])), (IH [info]).
    destruct (scan rest []); simpl; [|done]. by rewrite <- app_assoc.
Qed.

Lemma scan_infos (w : walk) :
  scan w [] = if aborts w then None else Some (infos (walk_items w)).
Proof.
  unfold aborts. induction w as [| |item rest IH]; simpl; try done.
  destruct (item_info item) as [info|[|]]; simpl.
  - rewrite scan_acc, IH. by destruct (walk_raises rest || _).
  - done.
  - by rewrite orb_true_r.
Qed.

(** X1.  When the folder exists and no exception other than an OSError is
    raised during the walk, [get_file_info_cross_platform] returns one
    record for each item whose [stat], time conversions and [is_file]
    succeed, in the order of the walk; the items that raise an OSError are
    left out, and nothing else is. *)
Theorem provider_skips_oserror_items (fs : filesystem) (path : string) :
  os_path_exists fs path = true ->
  aborts (rglob fs path) = false ->
  get_file_info_cross_platform fs path = infos (walk_items (rglob fs path)).
Proof.
  intros He Ha. unfold get_file_info_cross_platform.
  by rewrite He, scan_infos, Ha.
Qed.

(** X2.  When the folder does not exist, the walk raises, or an item raises
    an exception that is not an OSError, [get_file_info_cross_platform]
    returns the empty list: the records gathered before the failure are
    lost. *)
Theorem provider_keeps_nothing_on_failure (fs : filesystem) (path : string) :
  os_path_exists fs path = false \/ aborts (rglob fs path) = true ->
  get_file_info_cross_platform fs path = [].
Proof.
  unfold get_file_info_cross_platform. intros [->|Ha]; [done|].
  rewrite scan_infos, Ha. by destruct (negb _).
Qed.

Lemma provider_infos (fs : filesystem) (path : string) :
  exists items, items `sublist_of` walk_items (rglob fs path) /\
    get_file_info_cross_platform fs path = infos items.
Proof.
  unfold get_file_info_cross_platform.
  destruct (negb _); [by exists []; split; [apply sublist_nil_l|]|].
  rewrite scan_infos. destruct (aborts _).
  - exists []. split; [apply sublist_nil_l|done].
  - by eexists.
Qed.

Lemma elem_of_infos (items : list dir_entry) (r : record) :
  r ∈ infos items ->
  exists item, item ∈ items /\ item_info item = Returns r.
Proof.
  induction items as [|item rest IH]; simpl; [by intros ?%elem_of_nil|].
  destruct (item_info item) as [info|] eqn:Hi.
  - intros [->|Hin]%elem_of_cons.
    + exists item. split; [by left|done].
    + destruct (IH Hin) as (x & Hx & Hr). exists x. split; [by right|done].
  - intros Hin. destruct (IH Hin) as (x & Hx & Hr).
    exists x. split; [by right|done].
Qed.

(** The dictionary of an item, field by field. *)
Lemma item_info_fields (item : dir_entry) (r : record) :
  item_info item = Returns r ->
  exists stat c m a f,
    entry_stat item = Returns stat /\
    fromtimestamp (st_ctime stat) = Returns c /\
    fromtimestamp (st_mtime stat) = Returns m /\
    fromtimestamp (st_atime stat) = Returns a /\
    entry_is_file item = Returns f /\
    r = mkrecord (entry_path item) (isoformat c) (isoformat m) (isoformat a)
          (if f then PInt (st_size stat) else PNone).
Proof.
  unfold item_info.
  destruct (entry_stat item) as [stat|] eqn:Hs; [|done]. cbn [outcome_bind].
  destruct (fromtimestamp (st_ctime stat)) as [c|] eqn:Hc; [|done].
  destruct (fromtimestamp (st_mtime stat)) as [m|] eqn:Hm; [|done].
  destruct (fromtimestamp (st_atime stat)) as [a|] eqn:Ha; [|done].
  cbn [outcome_bind].
  destruct (entry_is_file item) as [f|] eqn:Hf; [|done]. cbn [outcome_bind].
  intros [= <-]. exists stat, c, m, a, f. by repeat split.
Qed.

End ProviderProperties.

(** ** The reference host reads back what it writes *)

Lemma digit_of_char (d : Z) :
  0 <= d <= 9 -> Ref.digit (ascii_of_N (48 + Z.to_N d)) = Some d.
Proof.
  intros Hd.
  assert (d = 0 \/ d = 1 \/ d = 2 \/ d = 3 \/ d = 4 \/ d = 5 \/ d = 6 \/
          d = 7 \/ d = 8 \/ d = 9) as Hc by lia.
  repeat destruct Hc as [->|Hc]; try subst d; reflexivity.
Qed.

Lemma digit_char_not_Z (d : Z) :
  0 <= d <= 9 -> Ascii.eqb (ascii_of_N (48 + Z.to_N d)) "Z" = false.
Proof.
  intros Hd.
  assert (d = 0 \/ d = 1 \/ d = 2 \/ d = 3 \/ d = 4 \/ d = 5 \/ d = 6 \/
          d = 7 \/ d = 8 \/ d = 9) as Hc by lia.
  repeat destruct Hc as [->|Hc]; try subst d; reflexivity.
Qed.

Lemma digits_pad_more (n k : nat) (acc z : Z) (rest : string) :
  0 <= z < 10 ^ Z.of_nat n ->
  Ref.digits (n + k) acc (RefHost.pad n z rest)
  = Ref.digits k (acc * 10 ^ Z.of_nat n + z) rest.
Proof.
  revert k acc z rest. induction n as [|n IH]; intros k acc z rest Hz.
  - simpl in *. f_equal. lia.
  - rewrite Nat2Z.inj_succ, Z.pow_succ_r in * by lia.
    cbn [RefHost.pad]. rewrite Nat.add_succ_comm, IH.
    2:{ split; [apply Z.div_pos; lia|].
        apply Z.div_lt_upper_bound; lia. }
    cbn [Ref.digits].
    rewrite digit_of_char by (pose proof (Z.mod_pos_bound z 10); lia).
    f_equal. pose proof (Z.div_mod z 10). lia.
Qed.

Lemma digits_pad (n : nat) (z : Z) (rest : string) :
  0 <= z < 10 ^ Z.of_nat n ->
  Ref.digits n 0 (RefHost.pad n z rest) = Some (z, rest).
Proof.
  intros Hz. pose proof (digits_pad_more n 0 0 z rest Hz) as Hd.
  rewrite Nat.add_0_r in Hd. by rewrite Hd.
Qed.

Lemma replace_Z_pad (n : nat) (z : Z) (rest : string) :
  replace_Z (RefHost.pad n z rest) = RefHost.pad n z (replace_Z rest).
Proof.
  revert z rest. induction n as [|n IH]; intros z rest; [done|].
  cbn [RefHost.pad]. rewrite IH. cbn [replace_Z].
  by rewrite digit_char_not_Z by (pose proof (Z.mod_pos_bound z 10); lia).
Qed.

Lemma append_empty (s : string) : s +:+ "" = s.
Proof.
  induction s as [|c s IH]; [done|].
  change (String c s +:+ "") with (String c (s +:+ "")). by f_equal.
Qed.

Lemma days_in_month_le (y m : Z) : days_in_month y m <= 31.
Proof.
  unfold days_in_month.
  destruct (m =? 2); [by destruct (is_leap y)|by destruct (_ || _)].
Qed.

(** What [isoformat] writes for a naive time holds no ["Z"]. *)
Lemma replace_Z_isoformat (t : datetime) :
  tzinfo t = None ->
  replace_Z (RefHost.isoformat t) = RefHost.isoformat t.
Proof.
  intros Ht. unfold RefHost.isoformat. rewrite Ht, append_empty.
  repeat (rewrite replace_Z_pad; cbn [replace_Z Ascii.eqb Bool.eqb]).
  destruct (microsecond (dt_time t) =? 0); [done|].
  cbn [replace_Z Ascii.eqb Bool.eqb]. by rewrite replace_Z_pad.
Qed.

(** The reference [fromisoformat] reads the reference [isoformat] back. *)
Lemma parse_isoformat_isoformat (t : datetime) :
  RefHost.valid_datetime t = true -> tzinfo t = None ->
  Ref.parse_isoformat (RefHost.isoformat t) = Some t.
Proof.
  destruct t as [[y m d] [h mi s us] tz]. unfold RefHost.valid_datetime.
  cbn [dt_date dt_time tzinfo year month day hour minute second microsecond].
  intros Hv ->. rewrite !andb_true_iff in Hv.
  destruct Hv as [[[[[[[[Hvd Hh1] Hh2] Hm1] Hm2] Hs1] Hs2] Hu1] Hu2].
  pose proof Hvd as Hd. unfold Ref.valid_date in Hd.
  rewrite !andb_true_iff in Hd.
  destruct Hd as [[[[[Hy1 Hy2] Hmo1] Hmo2] Hd1] Hd2].
  pose proof (days_in_month_le y m).
  unfold RefHost.isoformat, Ref.parse_isoformat.
  cbn [dt_date dt_time tzinfo year month day hour minute second microsecond].
  rewrite append_empty.
  assert (Ref.valid_time h mi s = true) as Hvt
    by (unfold Ref.valid_time; by rewrite Hh2, Hm2, Hs2).
  do 3 (rewrite digits_pad by (simpl; lia);
        cbn [mbind option_bind Ref.expect Ascii.eqb Bool.eqb]).
  rewrite Hvd. cbn [negb].
  do 3 (rewrite digits_pad by (simpl; lia);
        cbn [mbind option_bind Ref.expect Ascii.eqb Bool.eqb]).
  destruct (us =? 0) eqn:Hus.
  - cbn [Ref.parse_fraction Ref.parse_offset mbind option_bind].
    rewrite Hvt. repeat f_equal. lia.
  - cbn [Ref.parse_fraction]. rewrite digits_pad by (simpl; lia).
    cbn [Ref.parse_offset mbind option_bind]. by rewrite Hvt.
Qed.

(** The reference library and the reference host satisfy [reads_back]. *)
Lemma reference_reads_back : reads_back (L := py_ref) (H := host_ref).
Proof.
  intros stamp t. cbn [fromtimestamp host_ref fromisoformat py_ref isoformat].
  unfold RefHost.fromtimestamp.
  destruct (stamp <? 0); [done|].
  match goal with |- context [RefHost.valid_datetime ?x] =>
    destruct (RefHost.valid_datetime x) eqn:Hv; [|done]
  end.
  intros [= <-]. split; [|done].
  rewrite replace_Z_isoformat by done.
  by apply parse_isoformat_isoformat.
Qed.

(** ** The records of the provider *)

Lemma mkrecord_lookup (full_name created modified accessed : string)
    (len : pyvalue) :
  let r := mkrecord full_name created modified accessed len in
  r !! "FullName" = Some (PStr full_name) /\
  r !! "CreationTime" = Some (PStr created) /\
  r !! "LastWriteTime" = Some (PStr modified) /\
  r !! "LastAccessTime" = Some (PStr accessed) /\
  r !! "Length" = Some len /\
  size r = 5%nat.
Proof. repeat split; vm_compute; reflexivity. Qed.

Section ProviderRecords.
Context {H : PyHost}.

(** X3.  Every record that [get_file_info_cross_platform] returns describes
    an item of the walk whose [stat] succeeded: it has exactly five keys, its
    [FullName] is the path of the item, its three timestamps are the texts
    [isoformat] writes for the times [fromtimestamp] gives for the three
    times of the [stat], and its [Length] is the size for a file and [None]
    otherwise. *)
Theorem provider_record_fields (fs : filesystem) (path : string)
    (r : record) :
  r ∈ get_file_info_cross_platform fs path ->
  exists item stat c m a is_file,
    item ∈ walk_items (rglob fs path) /\
    entry_stat item = Returns stat /\
    fromtimestamp (st_ctime stat) = Returns c /\
    fromtimestamp (st_mtime stat) = Returns m /\
    fromtimestamp (st_atime stat) = Returns a /\
    entry_is_file item = Returns is_file /\
    r !! "FullName" = Some (PStr (entry_path item)) /\
    r !! "CreationTime" = Some (PStr (isoformat c)) /\
    r !! "LastWriteTime" = Some (PStr (isoformat m)) /\
    r !! "LastAccessTime" = Some (PStr (isoformat a)) /\
    r !! "Length" = Some (if is_file then PInt (st_size stat) else PNone) /\
    size r = 5%nat.
Proof.
  destruct (provider_infos fs path) as (items & Hsub & ->).
  intros (item & Hin & Hi)%elem_of_infos.
  destruct (item_info_fields item r Hi)
    as (stat & c & m & a & f & Hs & Hc & Hm & Ha & Hf & ->).
  exists item, stat, c, m, a, f.
  split; [by eapply (sublist_subseteq _ _ Hsub)|].
  do 5 (split; [done|]). apply mkrecord_lookup.
Qed.

End ProviderRecords.

(** ** The filter on the records of the provider *)

Section ProviderThenFilter.
Context {L : PyLib} {H : PyHost}.
Hypothesis Hreads : reads_back.

Lemma parse_time_mkrecord (full_name : string) (c m a : datetime)
    (len : pyvalue) (sc sm sa : timestamp) :
  fromtimestamp sc = Returns c ->
  fromtimestamp sm = Returns m ->
  fromtimestamp sa = Returns a ->
  let r := mkrecord full_name (isoformat c) (isoformat m) (isoformat a) len in
  parse_time r "CreationTime" = Ok c /\
  parse_time r "LastWriteTime" = Ok m /\
  parse_time r "LastAccessTime" = Ok a /\
  dict_get r "FullName" (PStr "") = PStr full_name.
Proof.
  intros Hc Hm Ha r.
  destruct (mkrecord_lookup full_name (isoformat c) (isoformat m)
              (isoformat a) len) as (Hn & Hlc & Hlm & Hla & _).
  fold r in Hn, Hlc, Hlm, Hla.
  unfold parse_time, dict_get, datetime_fromisoformat.
  rewrite Hn, Hlc, Hlm, Hla. simpl.
  by rewrite (proj1 (Hreads _ _ Hc)), (proj1 (Hreads _ _ Hm)),
    (proj1 (Hreads _ _ Ha)).
Qed.

(** A record of the provider is well formed for every specification whose
    pattern compiles. *)
Lemma provider_record_well_formed (fs : filesystem) (path : string)
    (name_pattern : option string)
    (creation_date_from creation_date_to : option date)
    (modified_date_from modified_date_to : option date)
    (accessed_date_from accessed_date_to : option date) (r : record) :
  compiles name_pattern = true ->
  r ∈ get_file_info_cross_platform fs path ->
  well_formed name_pattern creation_date_from creation_date_to
    modified_date_from modified_date_to accessed_date_from accessed_date_to
    r = true /\
  timestamps_parse r = true.
Proof.
  intros Hp Hin.
  destruct (provider_infos fs path) as (items & _ & Heq).
  rewrite Heq in Hin. apply elem_of_infos in Hin as (item & _ & Hi).
  destruct (item_info_fields item r Hi)
    as (stat & c & m & a & f & _ & Hc & Hm & Ha & _ & ->).
  destruct (parse_time_mkrecord (entry_path item) c m a
              (if f then PInt (st_size stat) else PNone) _ _ _ Hc Hm Ha)
    as (Pc & Pm & Pa & Pn).
  unfold well_formed, named, timestamps_comparable, timestamps_parse,
    comparable, is_naive.
  rewrite Pc, Pm, Pa, Pn.
  rewrite (proj2 (Hreads _ _ Hc)), (proj2 (Hreads _ _ Hm)),
    (proj2 (Hreads _ _ Ha)).
  split; [|done]. unfold compiles in Hp.
  destruct name_pattern as [p|]; [|done].
  by destruct (re_compile p IGNORECASE).
Qed.

(** X4.  If [fromisoformat] reads back what [isoformat] writes, the records
    of [get_file_info_cross_platform] never make [filter_results] raise,
    whatever the bounds, for a pattern that compiles or no pattern: the call
    returns the records that satisfy the specification; and with no pattern
    and no bound it returns all of them. *)
Theorem filter_accepts_provider_records (fs : filesystem) (path : string)
    (name_pattern : option string)
    (creation_date_from creation_date_to : option date)
    (modified_date_from modified_date_to : option date)
    (accessed_date_from accessed_date_to : option date) :
  compiles name_pattern = true ->
  filter_results (get_file_info_cross_platform fs path) name_pattern
    creation_date_from creation_date_to modified_date_from modified_date_to
    accessed_date_from accessed_date_to
  = Ok (List.filter
          (satisfies name_pattern creation_date_from creation_date_to
             modified_date_from modified_date_to accessed_date_from
             accessed_date_to)
          (get_file_info_cross_platform fs path)) /\
  filter_results (get_file_info_cross_platform fs path) None None None None
    None None None
  = Ok (get_file_info_cross_platform fs path).
Proof.
  intros Hp. split.
  - apply filter_results_satisfies. apply forallb_forall. intros r Hin.
    apply list_elem_of_In in Hin.
    rewrite (proj1 (provider_record_well_formed fs path name_pattern
      creation_date_from creation_date_to modified_date_from
      modified_date_to accessed_date_from accessed_date_to r Hp Hin)).
    apply orb_true_r.
  - rewrite (filter_results_satisfies None None None None None None None).
    + f_equal. apply filter_all, forallb_forall. intros r Hin.
      apply list_elem_of_In in Hin.
      destruct (provider_record_well_formed fs path None None None None None
        None None r eq_refl Hin) as [_ Ht].
      unfold timestamps_parse in Ht. unfold satisfies, field_in_range.
      destruct (parse_time r "CreationTime"); [|done].
      destruct (parse_time r "LastWriteTime"); [|done].
      by destruct (parse_time r "LastAccessTime").
    + apply forallb_forall. intros r Hin. apply list_elem_of_In in Hin.
      by rewrite (proj1 (provider_record_well_formed fs path None None None
        None None None None r eq_refl Hin)).
Qed.

End ProviderThenFilter.

(** ** [run_powershell_command] *)

Lemma lstrip_blank (s : string) : blank s = true -> lstrip s = "".
Proof.
  induction s as [|c s IH]; simpl; [done|].
  intros [-> Hs]%andb_true_iff. by apply IH.
Qed.

Lemma strip_blank (s : string) : blank s = true -> strip s = "".
Proof. intros Hs. unfold strip. by rewrite lstrip_blank. Qed.

(** X5.  When the command completes, [run_powershell_command] returns the
    empty list for an output of white space only and for an output that
    [json.loads] refuses with JSONDecodeError, and a one-element list for an
    output that is a single JSON object; an exception leaves it exactly when
    [json.loads] raises another one on an output that is not blank; and a
    value it returns is never a bare object. *)
Theorem run_powershell_command_never_an_object {H : PyHost}
    (subprocess_run : list string -> process) (folder_path stdout : string) :
  subprocess_run ["powershell"; "-Command"; ps_command folder_path]
    = Completed stdout ->
  (blank stdout = true ->
     run_powershell_command subprocess_run folder_path = Some (PList [])) /\
  (json_loads (strip stdout) = JSONDecodeError ->
     run_powershell_command subprocess_run folder_path = Some (PList [])) /\
  (forall kvs, strip stdout <> "" ->
     json_loads (strip stdout) = Parsed (PDict kvs) ->
     run_powershell_command subprocess_run folder_path
       = Some (PList [PDict kvs])) /\
  (run_powershell_command subprocess_run folder_path = None <->
     strip stdout <> "" /\ json_loads (strip stdout) = JsonRaisesAnother) /\
  (forall v kvs,
     run_powershell_command subprocess_run folder_path = Some v ->
     v <> PDict kvs).
Proof.
  intros Hrun. unfold run_powershell_command. rewrite Hrun. cbv zeta.
  split; [|split; [|split; [|split]]].
  - intros Hb. by rewrite (strip_blank _ Hb).
  - intros Hj. destruct (strip stdout); [done|]. by rewrite Hj.
  - intros kvs Hne Hj. destruct (strip stdout); [done|]. by rewrite Hj.
  - destruct (strip stdout) as [|c s].
    + split; [done|]. by intros [? _].
    + destruct (json_loads (String c s)) as [v| |]; split; try done.
      all: by intros [_ ?].
  - intros v kvs. destruct (strip stdout) as [|c s]; [by intros [= <-]|].
    destruct (json_loads (String c s)) as [[]| |]; try done;
      by intros [= <-].
Qed.

(** * The application *)

Section ApplicationProperties.
Context {L : PyLib} {H : PyHost} {T : TkCalendar}.

Lemma insert_rows_acc (items : list record) (rows : list row) :
  insert_rows items rows
  = (rows ++ fst (insert_rows items []), snd (insert_rows items [])).
Proof.
  revert rows. induction items as [|item rest IH]; intros rows; simpl.
  - by rewrite app_nil_r.
  - destruct (formatted_item item) as [r|]; simpl; [|by rewrite app_nil_r].
    rewrite (IH (rows ++ [r])), (IH [r]). simpl. by rewrite <- app_assoc.
Qed.

(** When the loop does not raise, the table has a row for each record. *)
Lemma insert_rows_length (items : list record) :
  snd (insert_rows items []) = true ->
  length (fst (insert_rows items [])) = length items.
Proof.
  induction items as [|item rest IH]; simpl; [done|].
  destruct (formatted_item item) as [r|]; simpl; [|done].
  rewrite insert_rows_acc. simpl. intros Hok. by rewrite (IH Hok).
Qed.

Lemma update_treeview_spec (app : FileFilterApp) :
  let app' := fst (update_treeview app) in
  name_var app' = name_var app /\
  original_results app' = original_results app /\
  filtered_results app' = filtered_results app /\
  results_label app' = results_label app /\
  tree app' = fst (insert_rows (filtered_results app) []) /\
  snd (update_treeview app)
  = if snd (insert_rows (filtered_results app) []) then Done
    else DisplayRaised.
Proof.
  unfold update_treeview.
  by destruct (insert_rows (filtered_results app) []) as [rows ok].
Qed.

(** With no pattern and no bound the filter returns records that parse. *)
Lemma filter_results_no_filter (results : list record) :
  forallb timestamps_parse results = true ->
  filter_results results None None None None None None None = Ok results.
Proof.
  intros Hall.
  rewrite (filter_results_satisfies None None None None None None None).
  - f_equal. apply filter_all. eapply forallb_weaken; [|exact Hall].
    intros r. unfold timestamps_parse, satisfies, field_in_range.
    destruct (parse_time r "CreationTime"); [|done].
    destruct (parse_time r "LastWriteTime"); [|done].
    by destruct (parse_time r "LastAccessTime").
  - eapply forallb_weaken; [|exact Hall].
    intros r. unfold timestamps_parse, well_formed, timestamps_comparable.
    destruct (parse_time r "CreationTime"); [|done].
    destruct (parse_time r "LastWriteTime"); [|done].
    destruct (parse_time r "LastAccessTime"); [|done].
    intros _. unfold comparable. by rewrite !orb_true_r.
Qed.

(** X6.  When [filter_results] raises inside [apply_filters] (a pattern that
    does not compile, a timestamp that does not parse), the method leaves
    the two lists, the table, the label and the name as they were. *)
Theorem apply_filters_failure_keeps_view (app app' : FileFilterApp)
    (e : pyerror) :
  apply_filters app = (app', FilterRaised e) ->
  original_results app' = original_results app /\
  filtered_results app' = filtered_results app /\
  tree app' = tree app /\
  results_label app' = results_label app /\
  name_var app' = name_var app.
Proof.
  unfold apply_filters.
  destruct (read_date (creation_from_entry app)) as [cf e1].
  destruct (read_date (creation_to_entry app)) as [ct e2].
  destruct (read_date (modified_from_entry app)) as [mf e3].
  destruct (read_date (modified_to_entry app)) as [mt e4].
  destruct (read_date (accessed_from_entry app)) as [af e5].
  destruct (read_date (accessed_to_entry app)) as [at' e6].
  destruct (filter_results _ _ _ _ _ _ _ _) as [filtered|e0].
  - match goal with |- context [update_treeview ?a] =>
      pose proof (update_treeview_spec a) as Hu;
      destruct (update_treeview a) as [app2 [| |]]
    end; try done.
    cbn [fst snd] in Hu. destruct Hu as (_ & _ & _ & _ & _ & Hend).
    by destruct (snd (insert_rows _ _)).
  - by intros [= <- <-].
Qed.

End ApplicationProperties.

Section ApplicationMethods.
Context {L : PyLib} {H : PyHost} {T : TkCalendar}.

(** X7.  A name field that holds white space only filters like an empty
    one: [apply_filters] ends the same way and leaves the same filtered
    list, table and label. *)
Theorem blank_name_is_no_pattern (app : FileFilterApp) :
  blank (name_var app) = true ->
  snd (apply_filters app) = snd (apply_filters (set_name "" app)) /\
  filtered_results (fst (apply_filters app))
    = filtered_results (fst (apply_filters (set_name "" app))) /\
  tree (fst (apply_filters app))
    = tree (fst (apply_filters (set_name "" app))) /\
  results_label (fst (apply_filters app))
    = results_label (fst (apply_filters (set_name "" app))).
Proof.
  intros Hb. unfold apply_filters. rewrite (strip_blank _ Hb).
  cbn [set_name name_var creation_from_entry creation_to_entry
       modified_from_entry modified_to_entry accessed_from_entry
       accessed_to_entry original_results filtered_results tree
       results_label].
  change (strip "") with "".
  destruct (read_date (creation_from_entry app)) as [cf e1].
  destruct (read_date (creation_to_entry app)) as [ct e2].
  destruct (read_date (modified_from_entry app)) as [mf e3].
  destruct (read_date (modified_to_entry app)) as [mt e4].
  destruct (read_date (accessed_from_entry app)) as [af e5].
  destruct (read_date (accessed_to_entry app)) as [at' e6].
  destruct (filter_results _ _ _ _ _ _ _ _) as [filtered|e0]; [|done].
  unfold update_treeview, set_view.
  cbn [name_var creation_from_entry creation_to_entry
       modified_from_entry modified_to_entry accessed_from_entry
       accessed_to_entry original_results filtered_results tree
       results_label].
  by destruct (insert_rows filtered []) as [rows [|]].
Qed.

(** X8.  After [apply_filters] ends normally, the filtered list is what
    [filter_results] returns for the original list, a subsequence of it; the
    table has one row for each filtered record; and the label gives the two
    counts, the first at most the second. *)
Theorem apply_filters_done (app app' : FileFilterApp) :
  apply_filters app = (app', Done) ->
  original_results app' = original_results app /\
  filter_results (original_results app) (or_None (strip (name_var app)))
    (fst (read_date (creation_from_entry app)))
    (fst (read_date (creation_to_entry app)))
    (fst (read_date (modified_from_entry app)))
    (fst (read_date (modified_to_entry app)))
    (fst (read_date (accessed_from_entry app)))
    (fst (read_date (accessed_to_entry app)))
  = Ok (filtered_results app') /\
  filtered_results app' `sublist_of` original_results app /\
  length (tree app') = length (filtered_results app') /\
  results_label app'
  = count_label (length (filtered_results app'))
      (length (original_results app)) /\
  (length (filtered_results app') <= length (original_results app))%nat.
Proof.
  unfold apply_filters.
  destruct (read_date (creation_from_entry app)) as [cf e1].
  destruct (read_date (creation_to_entry app)) as [ct e2].
  destruct (read_date (modified_from_entry app)) as [mf e3].
  destruct (read_date (modified_to_entry app)) as [mt e4].
  destruct (read_date (accessed_from_entry app)) as [af e5].
  destruct (read_date (accessed_to_entry app)) as [at' e6].
  cbn [fst].
  destruct (filter_results _ _ _ _ _ _ _ _) as [filtered|e0] eqn:Hf; [|done].
  apply filter_results_Ok in Hf as Hsub. destruct Hsub as [_ Hsub].
  unfold update_treeview, set_view.
  cbn [name_var creation_from_entry creation_to_entry
       modified_from_entry modified_to_entry accessed_from_entry
       accessed_to_entry original_results filtered_results tree
       results_label].
  pose proof (insert_rows_length filtered) as Hlen.
  destruct (insert_rows filtered []) as [rows [|]]; [|done].
  intros [= <-].
  cbn [original_results filtered_results tree results_label fst snd] in *.
  assert (filtered `sublist_of` original_results app) as Hs
    by (rewrite Hsub; apply filter_sublist).
  repeat split; try done.
  - by apply Hlen.
  - by apply sublist_length.
Qed.


End ApplicationMethods.

Section ClearAndLoad.
Context {L : PyLib} {H : PyHost} {T : TkCalendar}.

Lemma read_date_cleared (entry : DateEntry) :
  read_date (entry_set "" entry) = (None, entry_set "" entry).
Proof. unfold read_date. by rewrite entry_get_set. Qed.

(** X10.  After [clear_filters] has ended normally, [apply_filters] shows
    every record again, provided the timestamps of the original records
    parse: it ends normally, the filtered list is the original list, the
    table is the one [clear_filters] left, and the label counts [n of n]. *)
Theorem clear_then_apply_shows_all (app app1 : FileFilterApp) :
  clear_filters app = (app1, Done) ->
  forallb timestamps_parse (original_results app) = true ->
  exists app2,
    apply_filters app1 = (app2, Done) /\
    filtered_results app2 = original_results app /\
    tree app2 = tree app1 /\
    results_label app2
    = count_label (length (original_results app))
        (length (original_results app)).
Proof.
  unfold clear_filters, update_treeview. cbn [filtered_results].
  destruct (insert_rows (original_results app) []) as [rows [|]] eqn:Hi;
    [|done].
  intros [= <-] Hparse. unfold apply_filters, set_view.
  cbn [name_var creation_from_entry creation_to_entry modified_from_entry
       modified_to_entry accessed_from_entry accessed_to_entry
       original_results filtered_results tree results_label].
  rewrite !read_date_cleared. change (or_None (strip "")) with (@None string).
  rewrite (filter_results_no_filter _ Hparse).
  unfold update_treeview, set_view.
  cbn [name_var creation_from_entry creation_to_entry modified_from_entry
       modified_to_entry accessed_from_entry accessed_to_entry
       original_results filtered_results tree results_label].
  rewrite Hi. eexists. split; [reflexivity|]. by repeat split.
Qed.

Lemma insert_rows_shown (items : list record) :
  Forall (fun item => is_Some (formatted_item item)) items ->
  snd (insert_rows items []) = true.
Proof.
  induction 1 as [|item rest [r Hr] _ IH]; simpl; [done|].
  rewrite Hr, insert_rows_acc. by simpl.
Qed.

Lemma provider_record_shown (fs : filesystem) (path : string) (r : record) :
  r ∈ get_file_info_cross_platform fs path -> is_Some (formatted_item r).
Proof.
  intros Hin. destruct (provider_infos fs path) as (items & _ & Heq).
  rewrite Heq in Hin. apply elem_of_infos in Hin as (item & _ & Hi).
  destruct (item_info_fields item r Hi)
    as (stat & c & m & a & f & _ & _ & _ & _ & _ & ->).
  match goal with |- context [mkrecord ?n ?x ?y ?z ?l] =>
    destruct (mkrecord_lookup n x y z l) as (_ & Hc & Hm & Ha & _)
  end.
  unfold formatted_item, dict_get. rewrite Hc, Hm, Ha. by eexists.
Qed.

(** X11.  When the cross-platform provider is the one [load_data] takes its
    records from (off Windows, or when PowerShell gave nothing), the method
    ends normally: both lists are the records of the provider and the table
    has a row for each of them. *)
Theorem load_data_shows_provider_records (fs : filesystem) (win32 : bool)
    (powershell : list record) (app : FileFilterApp) :
  win32 = false \/ powershell = [] ->
  exists app',
    load_data win32 powershell (get_file_info_cross_platform fs FOLDER_PATH)
      app = (app', Done) /\
    original_results app' = get_file_info_cross_platform fs FOLDER_PATH /\
    filtered_results app' = get_file_info_cross_platform fs FOLDER_PATH /\
    length (tree app')
    = length (get_file_info_cross_platform fs FOLDER_PATH).
Proof.
  intros Hsrc. unfold load_data.
  assert (loaded win32 powershell (get_file_info_cross_platform fs FOLDER_PATH)
          = get_file_info_cross_platform fs FOLDER_PATH) as ->.
  { unfold loaded. destruct Hsrc as [->| ->]; [done|by destruct win32]. }
  assert (snd (insert_rows (get_file_info_cross_platform fs FOLDER_PATH) [])
          = true) as Hok.
  { apply insert_rows_shown, Forall_forall. intros r.
    apply provider_record_shown. }
  pose proof (insert_rows_length _ Hok) as Hlen.
  unfold update_treeview, set_view.
  cbn [name_var creation_from_entry creation_to_entry modified_from_entry
       modified_to_entry accessed_from_entry accessed_to_entry
       original_results filtered_results tree results_label].
  destruct (insert_rows _ []) as [rows ok]. cbn [fst snd] in *. subst ok.
  eexists. split; [reflexivity|]. by repeat split.
Qed.

End ClearAndLoad.

(** * More on [filter_results] *)

Section Composition.
Context {L : PyLib}.

(** X12.  [filter_results] goes through a list piece by piece: on the
    concatenation of two lists it returns the concatenation of what it
    returns on each, and raises what the first of the two calls to raise
    raises. *)
Theorem filter_results_app (results1 results2 : list record)
    (name_pattern : option string)
    (creation_date_from creation_date_to : option date)
    (modified_date_from modified_date_to : option date)
    (accessed_date_from accessed_date_to : option date) :
  filter_results (results1 ++ results2) name_pattern creation_date_from
    creation_date_to modified_date_from modified_date_to accessed_date_from
    accessed_date_to
  = (let! out1 :=
       filter_results results1 name_pattern creation_date_from
         creation_date_to modified_date_from modified_date_to
         accessed_date_from accessed_date_to in
     let! out2 :=
       filter_results results2 name_pattern creation_date_from
         creation_date_to modified_date_from modified_date_to
         accessed_date_from accessed_date_to in
     Ok (out1 ++ out2)).
Proof.
  induction results1 as [|item rest IH].
  - change (filter_results [] name_pattern creation_date_from
              creation_date_to modified_date_from modified_date_to
              accessed_date_from accessed_date_to) with (Ok (@nil record)).
    cbn [app bind].
    by destruct (filter_results results2 _ _ _ _ _ _ _).
  - rewrite <- app_comm_cons, !filter_results_cons, IH.
    destruct (loop_body _ _ _ _ _ _ _ item) as [[|]|e]; simpl; [| |done].
    + destruct (filter_results rest _ _ _ _ _ _ _); simpl; [|done].
      by destruct (filter_results results2 _ _ _ _ _ _ _).
    + destruct (filter_results rest _ _ _ _ _ _ _); simpl; [|done].
      by destruct (filter_results results2 _ _ _ _ _ _ _).
Qed.

(** Two passes against one: the general step, for turns of the loop that
    decompose. *)
Lemma two_passes
    (p p1 p2 : option string)
    (cf ct mf mt af at' cf1 ct1 mf1 mt1 af1 at1 cf2 ct2 mf2 mt2 af2 at2
       : option date) :
  (forall item,
     loop_body p cf ct mf mt af at' item
     = (let! v := loop_body p1 cf1 ct1 mf1 mt1 af1 at1 item in
        match v with
        | Continue => Ok Continue
        | Append => loop_body p2 cf2 ct2 mf2 mt2 af2 at2 item
        end)) ->
  forall results out,
    filter_results results p cf ct mf mt af at' = Ok out <->
    exists mid,
      filter_results results p1 cf1 ct1 mf1 mt1 af1 at1 = Ok mid /\
      filter_results mid p2 cf2 ct2 mf2 mt2 af2 at2 = Ok out.
Proof.
  intros Hbody results. induction results as [|item rest IH]; intros out.
  - split.
    + intros [= <-]. by exists [].
    + by intros (mid & [= <-] & [= <-]).
  - rewrite !filter_results_cons, Hbody.
    destruct (loop_body p1 _ _ _ _ _ _ item) as [[|]|e] eqn:H1; simpl.
    + destruct (filter_results rest p _ _ _ _ _ _) as [o|] eqn:Hf; simpl.
      * destruct (proj1 (IH o) eq_refl) as (mid & -> & Hm). simpl. split.
        -- intros [= <-]. by exists mid.
        -- intros (mid' & [= <-] & Hm'). by rewrite <- Hm', Hm.
      * split; [done|]. intros (mid & Hmid & Hm).
        destruct (filter_results rest p1 _ _ _ _ _ _) as [m1|]; [|done].
        injection Hmid as <-.
        by pose proof (proj2 (IH out) (ex_intro _ m1 (conj eq_refl Hm))).
    + destruct (loop_body p2 _ _ _ _ _ _ item) as [[|]|e] eqn:H2; simpl.
      * destruct (filter_results rest p _ _ _ _ _ _) as [o|] eqn:Hf; simpl.
        -- destruct (proj1 (IH o) eq_refl) as (mid & -> & Hm). simpl. split.
           ++ intros [= <-]. exists (item :: mid). split; [done|].
              by rewrite filter_results_cons, H2, Hm.
           ++ intros (mid' & [= <-] & Hm').
              by rewrite filter_results_cons, H2, Hm in Hm'.
        -- split; [done|]. intros (mid & Hmid & Hm).
           destruct (filter_results rest p1 _ _ _ _ _ _) as [m1|]; [|done].
           injection Hmid as <-.
           rewrite filter_results_cons, H2 in Hm. simpl in Hm.
           destruct (filter_results m1 p2 _ _ _ _ _ _) as [o2|] eqn:Hm1;
             [|done].
           by pose proof (proj2 (IH o2) (ex_intro _ m1 (conj eq_refl Hm1))).
      * destruct (filter_results rest p _ _ _ _ _ _) as [o|] eqn:Hf; simpl.
        -- destruct (proj1 (IH o) eq_refl) as (mid & -> & Hm). simpl. split.
           ++ intros [= <-]. exists (item :: mid). split; [done|].
              by rewrite filter_results_cons, H2, Hm.
           ++ intros (mid' & [= <-] & Hm').
              by rewrite filter_results_cons, H2, Hm in Hm'.
        -- split; [done|]. intros (mid & Hmid & Hm).
           destruct (filter_results rest p1 _ _ _ _ _ _) as [m1|]; [|done].
           injection Hmid as <-.
           rewrite filter_results_cons, H2 in Hm. simpl in Hm.
           destruct (filter_results m1 p2 _ _ _ _ _ _) as [o2|] eqn:Hm1;
             [|done].
           by pose proof (proj2 (IH o2) (ex_intro _ m1 (conj eq_refl Hm1))).
      * split; [done|]. intros (mid & Hmid & Hm).
        destruct (filter_results rest p1 _ _ _ _ _ _) as [m1|]; [|done].
        injection Hmid as <-.
        by rewrite filter_results_cons, H2 in Hm.
    + split; [done|]. by intros (mid & ? & _).
Qed.

End Composition.

Section Passes.
Context {L : PyLib}.

Lemma loop_body_name_then_dates (p : option string)
    (cf ct mf mt af at' : option date) (item : record) :
  loop_body p cf ct mf mt af at' item
  = (let! v := loop_body p None None None None None None item in
     match v with
     | Continue => Ok Continue
     | Append => loop_body None cf ct mf mt af at' item
     end).
Proof.
  unfold loop_body. change (name_filter None item) with (Ok true).
  destruct (name_filter p item) as [[|]|]; cbn [bind negb]; try done.
  destruct (parse_time item "CreationTime") as [tc|]; [|done].
  destruct (parse_time item "LastWriteTime") as [tm|]; [|done].
  by destruct (parse_time item "LastAccessTime") as [ta|].
Qed.

Lemma loop_body_creation_then_rest (cf ct mf mt af at' : option date)
    (item : record) :
  loop_body None cf ct mf mt af at' item
  = (let! v := loop_body None cf ct None None None None item in
     match v with
     | Continue => Ok Continue
     | Append => loop_body None None None mf mt af at' item
     end).
Proof.
  unfold loop_body. change (name_filter None item) with (Ok true).
  cbn [bind negb].
  destruct (parse_time item "CreationTime") as [tc|]; [|done].
  destruct (parse_time item "LastWriteTime") as [tm|]; [|done].
  destruct (parse_time item "LastAccessTime") as [ta|]; [|done].
  cbn [bind before_from after_to].
  destruct (before_from cf tc) as [[|]|]; cbn [bind]; try done.
  by destruct (after_to ct tc) as [[|]|].
Qed.

Lemma loop_body_modified_then_accessed (mf mt af at' : option date)
    (item : record) :
  loop_body None None None mf mt af at' item
  = (let! v := loop_body None None None mf mt None None item in
     match v with
     | Continue => Ok Continue
     | Append => loop_body None None None None None af at' item
     end).
Proof.
  unfold loop_body. change (name_filter None item) with (Ok true).
  cbn [bind negb].
  destruct (parse_time item "CreationTime") as [tc|]; [|done].
  destruct (parse_time item "LastWriteTime") as [tm|]; [|done].
  destruct (parse_time item "LastAccessTime") as [ta|]; [|done].
  cbn [bind before_from after_to].
  destruct (before_from mf tm) as [[|]|]; cbn [bind]; try done.
  by destruct (after_to mt tm) as [[|]|].
Qed.

(** X13.  A call of [filter_results] with a pattern and the three ranges
    returns a list exactly when four calls in a row do, each on what the one
    before returned: by the name alone, then by the creation range alone,
    the modified range alone and the accessed range alone; and they return
    the same list. *)
Theorem filter_results_in_passes (results out : list record)
    (name_pattern : option string)
    (creation_date_from creation_date_to : option date)
    (modified_date_from modified_date_to : option date)
    (accessed_date_from accessed_date_to : option date) :
  filter_results results name_pattern creation_date_from creation_date_to
    modified_date_from modified_date_to accessed_date_from accessed_date_to
  = Ok out <->
  exists by_name by_creation by_modified,
    filter_results results name_pattern None None None None None None
      = Ok by_name /\
    filter_results by_name None creation_date_from creation_date_to
      None None None None = Ok by_creation /\
    filter_results by_creation None None None modified_date_from
      modified_date_to None None = Ok by_modified /\
    filter_results by_modified None None None None None accessed_date_from
      accessed_date_to = Ok out.
Proof.
  rewrite (two_passes _ _ _ _ _ _ _ _ _ _ _ _ _ _ _ _ _ _ _ _ _
             (loop_body_name_then_dates name_pattern creation_date_from
                creation_date_to modified_date_from modified_date_to
                accessed_date_from accessed_date_to)).
  split.
  - intros (r1 & H1 & H2).
    apply (two_passes _ _ _ _ _ _ _ _ _ _ _ _ _ _ _ _ _ _ _ _ _
             (loop_body_creation_then_rest creation_date_from
                creation_date_to modified_date_from modified_date_to
                accessed_date_from accessed_date_to)) in H2
      as (r2 & H2 & H3).
    apply (two_passes _ _ _ _ _ _ _ _ _ _ _ _ _ _ _ _ _ _ _ _ _
             (loop_body_modified_then_accessed modified_date_from
                modified_date_to accessed_date_from accessed_date_to)) in H3
      as (r3 & H3 & H4).
    by exists r1, r2, r3.
  - intros (r1 & r2 & r3 & H1 & H2 & H3 & H4). exists r1. split; [done|].
    apply (two_passes _ _ _ _ _ _ _ _ _ _ _ _ _ _ _ _ _ _ _ _ _
             (loop_body_creation_then_rest creation_date_from
                creation_date_to modified_date_from modified_date_to
                accessed_date_from accessed_date_to)).
    exists r2. split; [done|].
    apply (two_passes _ _ _ _ _ _ _ _ _ _ _ _ _ _ _ _ _ _ _ _ _
             (loop_body_modified_then_accessed modified_date_from
                modified_date_to accessed_date_from accessed_date_to)).
    by exists r3.
Qed.

End Passes.

(** * The properties on the examples *)

Section MoreWitnesses.
Import Examples.

Lemma provider_skips_oserror_items_witness :
  os_path_exists Folder.fs FOLDER_PATH = true /\
  aborts (rglob Folder.fs FOLDER_PATH) = false /\
  get_file_info_cross_platform Folder.fs FOLDER_PATH
    = [Folder.record_a; Folder.record_b].
Proof.
  assert (aborts (rglob Folder.fs FOLDER_PATH) = false) as Ha
    by (vm_compute; reflexivity).
  split; [reflexivity|]. split; [exact Ha|].
  rewrite (provider_skips_oserror_items Folder.fs FOLDER_PATH eq_refl Ha).
  vm_compute. reflexivity.
Defined.

Lemma provider_keeps_nothing_on_failure_witness :
  (os_path_exists Folder.fs "E:\bad" = false \/
   aborts (rglob Folder.fs "E:\bad") = true) /\
  get_file_info_cross_platform Folder.fs "E:\bad" = [].
Proof.
  assert (os_path_exists Folder.fs "E:\bad" = false \/
          aborts (rglob Folder.fs "E:\bad") = true) as Ha
    by (right; vm_compute; reflexivity).
  split; [exact Ha|].
  exact (provider_keeps_nothing_on_failure Folder.fs "E:\bad" Ha).
Defined.

Lemma provider_record_fields_witness :
  Folder.record_b ∈ get_file_info_cross_platform Folder.fs FOLDER_PATH /\
  exists item,
    item ∈ walk_items (rglob Folder.fs FOLDER_PATH) /\
    entry_is_file item = Returns false /\
    Folder.record_b !! "FullName" = Some (PStr (entry_path item)) /\
    Folder.record_b !! "Length" = Some PNone.
Proof.
  assert (Folder.record_b
            ∈ get_file_info_cross_platform Folder.fs FOLDER_PATH) as Hin.
  { replace (get_file_info_cross_platform Folder.fs FOLDER_PATH)
      with [Folder.record_a; Folder.record_b] by (vm_compute; reflexivity).
    apply elem_of_cons. right. apply elem_of_cons. by left. }
  split; [exact Hin|].
  destruct (provider_record_fields Folder.fs FOLDER_PATH Folder.record_b Hin)
    as (item & stat & c & m & a & f & Hi & _ & _ & _ & _ & Hf & Hn & _ & _
        & _ & Hl & _).
  exists item. split; [exact Hi|].
  assert (f = false) as ->.
  { destruct f; [|done]. by vm_compute in Hl. }
  by repeat split.
Defined.

Lemma filter_accepts_provider_records_witness :
  reads_back (L := py_ref) (H := host_ref) /\
  compiles (Some "txt") = true /\
  filter_results (get_file_info_cross_platform Folder.fs FOLDER_PATH)
    (Some "txt") None None (Some jan1) (Some dec31) None None
  = Ok [Folder.record_a] /\
  filter_results (get_file_info_cross_platform Folder.fs FOLDER_PATH)
    None None None None None None None
  = Ok (get_file_info_cross_platform Folder.fs FOLDER_PATH).
Proof.
  split; [exact reference_reads_back|]. split; [reflexivity|].
  destruct (filter_accepts_provider_records reference_reads_back Folder.fs
    FOLDER_PATH (Some "txt") None None (Some jan1) (Some dec31) None None
    eq_refl) as [Hs Hall].
  split; [|exact Hall]. rewrite Hs. vm_compute. reflexivity.
Defined.

Lemma run_powershell_command_never_an_object_witness :
  run_powershell_command (fun _ => Completed " {} ") FOLDER_PATH
    = Some (PList [PDict []]).
Proof.
  apply (run_powershell_command_never_an_object (fun _ => Completed " {} ")
           FOLDER_PATH " {} " eq_refl); [discriminate|reflexivity].
Defined.

Lemma apply_filters_failure_keeps_view_witness :
  apply_filters Window.app_bad
    = (fst (apply_filters Window.app_bad), FilterRaised ValueError) /\
  filtered_results (fst (apply_filters Window.app_bad)) = [alpha] /\
  results_label (fst (apply_filters Window.app_bad)) = "Results: 1 of 2".
Proof.
  assert (apply_filters Window.app_bad
          = (fst (apply_filters Window.app_bad), FilterRaised ValueError))
    as Hrun by (vm_compute; reflexivity).
  split; [exact Hrun|].
  destruct (apply_filters_failure_keeps_view _ _ _ Hrun)
    as (_ & Hf & _ & Hl & _).
  split; [rewrite Hf | rewrite Hl]; reflexivity.
Defined.

Lemma blank_name_is_no_pattern_witness :
  blank (name_var Window.app) = true /\
  filtered_results (fst (apply_filters Window.app))
    = filtered_results (fst (apply_filters (set_name "" Window.app))).
Proof.
  split; [reflexivity|].
  exact (proj1 (proj2 (blank_name_is_no_pattern Window.app eq_refl))).
Defined.

Lemma apply_filters_done_witness :
  apply_filters Window.app = (fst (apply_filters Window.app), Done) /\
  filtered_results (fst (apply_filters Window.app)) = [beta] /\
  results_label (fst (apply_filters Window.app)) = "Results: 1 of 2".
Proof.
  assert (apply_filters Window.app = (fst (apply_filters Window.app), Done))
    as Hrun by (vm_compute; reflexivity).
  split; [exact Hrun|].
  destruct (apply_filters_done _ _ Hrun) as (_ & _ & _ & _ & Hl & _).
  split; [vm_compute; reflexivity|]. rewrite Hl. vm_compute. reflexivity.
Defined.


Lemma clear_then_apply_shows_all_witness :
  clear_filters Window.app = (fst (clear_filters Window.app), Done) /\
  forallb timestamps_parse (original_results Window.app) = true /\
  exists app2,
    apply_filters (fst (clear_filters Window.app)) = (app2, Done) /\
    filtered_results app2 = [alpha; beta].
Proof.
  assert (clear_filters Window.app = (fst (clear_filters Window.app), Done))
    as Hrun by (vm_compute; reflexivity).
  assert (forallb timestamps_parse (original_results Window.app) = true)
    as Hp by (vm_compute; reflexivity).
  split; [exact Hrun|]. split; [exact Hp|].
  destruct (clear_then_apply_shows_all _ _ Hrun Hp)
    as (app2 & Ha & Hf & _).
  exists app2. split; [exact Ha|exact Hf].
Defined.

Lemma load_data_shows_provider_records_witness :
  (false = false \/ [Folder.record_a] = []) /\
  exists app',
    load_data false [Folder.record_a]
      (get_file_info_cross_platform Folder.fs FOLDER_PATH) Window.start
      = (app', Done) /\
    length (tree app') = 2%nat.
Proof.
  split; [by left|].
  destruct (load_data_shows_provider_records Folder.fs false
              [Folder.record_a] Window.start (or_introl eq_refl))
    as (app' & Hl & _ & _ & Hlen).
  exists app'. split; [exact Hl|]. rewrite Hlen. vm_compute. reflexivity.
Defined.

Lemma filter_results_in_passes_witness :
  filter_results [alpha; beta] (Some "txt") (Some apr1) (Some dec31) None
    None None None = Ok [beta] /\
  exists by_name by_creation by_modified,
    filter_results [alpha; beta] (Some "txt") None None None None None None
      = Ok by_name /\
    filter_results by_name None (Some apr1) (Some dec31) None None None None
      = Ok by_creation /\
    filter_results by_creation None None None None None None None
      = Ok by_modified /\
    filter_results by_modified None None None None None None None = Ok [beta].
Proof.
  assert (filter_results [alpha; beta] (Some "txt") (Some apr1) (Some dec31)
            None None None None = Ok [beta]) as Hrun
    by (vm_compute; reflexivity).
  split; [exact Hrun|].
  exact (proj1 (filter_results_in_passes _ _ _ _ _ _ _ _ _) Hrun).
Defined.

End MoreWitnesses.
